(** * terradozer: the provider facade and the destruction orchestrator

    A shallow embedding of [main.go] (the orchestrator, [mainExitCode] and
    [getResourceID]) and of the two provider files that come with it: the one
    that defines [ImportResource], [ReadResource], [DeleteResource] and
    [applyResourceChange], and the one that defines [configure],
    [importResource], [readResource], [destroy] and
    [enableForceDestroyAttributes].

    The Go libraries the program calls (go-cty values, encoding/json, the
    plugin process) are modelled up to what the program observes of them;
    each such model says so in its comment. *)

From stdpp Require Import gmap strings list fin_maps.
From Stdlib Require Import ZArith.

Open Scope string_scope.
Open Scope list_scope.

#[local] Set Warnings "-register-all".

(** ** go-cty values *)

Module cty.

(** [cty.Type]: the primitive types, the dynamic pseudo-type, and the
    collection and structural types. Capsule types are left out. *)
Inductive Ty : Type :=
| Bool
| Number
| String
| DynamicPseudoType
| List (elem : Ty)
| Map (elem : Ty)
| Set_ (elem : Ty)
| Tuple (elems : list Ty)
| Object (attrs : gmap string Ty).

(** [cty.Value]: a type together with a known value, a null or an unknown.
    Known lists, maps and sets carry their element type, as
    [cty.ListValEmpty], [cty.MapValEmpty] and [cty.SetValEmpty] force them
    to; a set is kept as the list of its elements. Values carry no
    marks. *)
Inductive Value : Type :=
| NullVal (ty : Ty)
| UnknownVal (ty : Ty)
| BoolVal (b : bool)
| NumberIntVal (n : Z)
| StringVal (s : string)
| ListVal (elem : Ty) (elems : list Value)
| MapVal (elem : Ty) (elems : gmap string Value)
| SetVal (elem : Ty) (elems : list Value)
| TupleVal (elems : list Value)
| ObjectVal (attrs : gmap string Value).

Definition True : Value := BoolVal true.
Definition False : Value := BoolVal false.
Definition EmptyObjectVal : Value := ObjectVal ∅.

(** [Value.Type]. *)
Fixpoint Type_ (v : Value) : Ty :=
  match v with
  | NullVal ty | UnknownVal ty => ty
  | BoolVal _ => Bool
  | NumberIntVal _ => Number
  | StringVal _ => String
  | ListVal elem _ => List elem
  | MapVal elem _ => Map elem
  | SetVal elem _ => Set_ elem
  | TupleVal elems => Tuple (Type_ <$> elems)
  | ObjectVal attrs => Object (Type_ <$> attrs)
  end.

(** [Type.Equals(cty.Bool)]: only the primitive boolean type is equal to
    it. *)
Definition EqualsBool (ty : Ty) : bool :=
  match ty with Bool => true | _ => false end.

Definition IsNull (v : Value) : bool :=
  match v with NullVal _ => true | _ => false end.

(** [Value.CanIterateElements] looks at the type of the value only: it is
    true for every list, map, set, tuple and object type, whether the value
    is known, null or unknown. *)
Definition CanIterateElements (v : Value) : bool :=
  match Type_ v with
  | List _ | Map _ | Set_ _ | Tuple _ | Object _ => true
  | _ => false
  end.

(** [Value.LengthInt]: the number of attributes of an object type and of
    elements of a tuple type even for a null or unknown value; for lists,
    maps and sets the value has to be known and not null ([None] is the
    panic). *)
Definition LengthInt (v : Value) : option nat :=
  match v with
  | ObjectVal attrs => Some (size attrs)
  | TupleVal elems => Some (length elems)
  | ListVal _ elems => Some (length elems)
  | MapVal _ elems => Some (size elems)
  | SetVal _ elems => Some (length elems)
  | NullVal (Object tys) | UnknownVal (Object tys) => Some (size tys)
  | NullVal (Tuple tys) | UnknownVal (Tuple tys) => Some (length tys)
  | _ => None
  end.

(** The elements of a set by key: the element iterator of a set gives each
    element as its own key, and [AsString] takes only a known string that
    is not null ([None] is its panic). *)
Definition byOwnKey (elems : list Value) : option (gmap string Value) :=
  foldr (λ v acc,
           match v, acc with
           | StringVal s, Some m => Some (<[s := v]> m)
           | _, _ => None
           end) (Some ∅) elems.

(** [Value.AsValueMap]: the empty (nil) map when the length is zero;
    otherwise the elements by string key. The element iterator panics on
    null and unknown values, and the keys of a list and of a tuple are
    numbers, which [AsString] refuses: [None] is the panic. *)
Definition AsValueMap (v : Value) : option (gmap string Value) :=
  match LengthInt v with
  | None => None
  | Some O => Some ∅
  | Some (S _) =>
      match v with
      | ObjectVal attrs => Some attrs
      | MapVal _ elems => Some elems
      | SetVal _ elems => byOwnKey elems
      | _ => None
      end
  end.

End cty.

(** ** The force-destroy patch *)

(** The attribute names of the test
    [k == "force_detach_policies" || k == "force_destroy"]. *)
Definition isForceDestroyName (k : string) : bool :=
  bool_decide (k = "force_detach_policies") || bool_decide (k = "force_destroy").

(** One iteration of the loop over [state.AsValueMap()]: the assignment into
    [stateWithDestroyAttrs] for the entry [(k, v)]. *)
Definition patchAttr (k : string) (v : cty.Value)
    (stateWithDestroyAttrs : gmap string cty.Value) : gmap string cty.Value :=
  if isForceDestroyName k then
    if cty.EqualsBool (cty.Type_ v) then <[k := cty.True]> stateWithDestroyAttrs
    else stateWithDestroyAttrs
  else <[k := v]> stateWithDestroyAttrs.

(** [enableForceDestroyAttributes]; [None] is a panic raised inside
    [AsValueMap]. *)
Definition enableForceDestroyAttributes (state : cty.Value) : option cty.Value :=
  if cty.CanIterateElements state then
    match cty.AsValueMap state with
    | Some elems => Some (cty.ObjectVal (map_fold patchAttr ∅ elems))
    | None => None
    end
  else Some (cty.ObjectVal ∅).

(** ** encoding/json, as far as [getResourceID] uses it *)

Module json.

(** A JSON document after the syntax scan. *)
Inductive Document : Type :=
| Null
| Bool (b : bool)
| Number (literal : string)
| String (s : string)
| Array (elems : list Document)
| Object (members : list (string * Document)).

(** The bytes handed to [json.Unmarshal]: either they do not scan as JSON
    (the scan is not modelled, the raw text is kept), or they are the
    document they spell. *)
Inductive Bytes : Type :=
| Invalid (raw : string)
| Valid (doc : Document).

Inductive Error : Type :=
| SyntaxError
| UnmarshalTypeError.

End json.

(** [type ResourceID struct { ID string `json:"id"` }] *)
Record ResourceID : Type := { ID : string }.

(** The object keys that select the field tagged [id]: an exact match, or a
    match under the ASCII case folding encoding/json applies to a field name
    made of letters other than k and s. *)
Definition selects_id (key : string) : bool :=
  bool_decide (key = "id") || bool_decide (key = "Id")
  || bool_decide (key = "iD") || bool_decide (key = "ID").

(** Decoding one member value into the string field: a JSON string is
    stored, a null leaves the field alone, anything else saves an
    [UnmarshalTypeError] and decoding goes on. *)
Definition decode_ID (v : json.Document) (result : ResourceID)
    (saved : option json.Error) : ResourceID * option json.Error :=
  match v with
  | json.String s => ({| ID := s |}, saved)
  | json.Null => (result, saved)
  | _ => (result, match saved with
                  | None => Some json.UnmarshalTypeError
                  | Some e => Some e
                  end)
  end.

Fixpoint decode_members (members : list (string * json.Document))
    (result : ResourceID) (saved : option json.Error)
    : ResourceID * option json.Error :=
  match members with
  | [] => (result, saved)
  | (key, v) :: rest =>
      if selects_id key then
        let '(result', saved') := decode_ID v result saved in
        decode_members rest result' saved'
      else decode_members rest result saved
  end.

(** [json.Unmarshal(data, &result)] for [result] of type [ResourceID]: the
    struct after the call and the error returned. *)
Definition Unmarshal (data : json.Bytes) (result : ResourceID)
    : ResourceID * option json.Error :=
  match data with
  | json.Invalid _ => (result, Some json.SyntaxError)
  | json.Valid json.Null => (result, None)
  | json.Valid (json.Object members) => decode_members members result None
  | json.Valid _ => (result, Some json.UnmarshalTypeError)
  end.

(** ** Terraform addresses, states, diagnostics *)

Module addrs.

Inductive ResourceMode : Type :=
| InvalidResourceMode
| ManagedResourceMode
| DataResourceMode.

Inductive InstanceKey : Type :=
| NoKey
| IntKey (i : Z)
| StringKey (k : string).

Record Resource : Type :=
  { Mode : ResourceMode; Type_ : string; Name : string }.

Record ResourceInstance : Type :=
  { inst_Resource : Resource; Key : InstanceKey }.

Record AbsResourceInstance : Type :=
  { Module_ : list (string * InstanceKey); abs_Resource : ResourceInstance }.

#[global] Instance ResourceMode_eq_dec : EqDecision ResourceMode.
Proof. solve_decision. Defined.
#[global] Instance InstanceKey_eq_dec : EqDecision InstanceKey.
Proof. solve_decision. Defined.
#[global] Instance Resource_eq_dec : EqDecision Resource.
Proof. solve_decision. Defined.
#[global] Instance ResourceInstance_eq_dec : EqDecision ResourceInstance.
Proof. solve_decision. Defined.
#[global] Instance AbsResourceInstance_eq_dec : EqDecision AbsResourceInstance.
Proof. solve_decision. Defined.

End addrs.

Module tfdiags.

Inductive Severity : Type := Error | Warning.

Record Diagnostic : Type := { severity : Severity; summary : string }.

Definition Diagnostics : Type := list Diagnostic.

Definition isError (d : Diagnostic) : bool :=
  match severity d with Error => true | Warning => false end.

(** [Diagnostics.HasErrors] *)
Definition HasErrors (diags : Diagnostics) : bool := existsb isError diags.

End tfdiags.

Module states.

Record ResourceInstanceObjectSrc : Type :=
  { AttrsJSON : json.Bytes; Private : string }.

Record ResourceInstance : Type :=
  { Current : option ResourceInstanceObjectSrc }.

(** A snapshot: the resource instances by address. *)
Record State : Type :=
  { instances : list (addrs.AbsResourceInstance * ResourceInstance) }.

(** [State.ResourceInstance(addr)]: the instance at the address, or the
    nil pointer. *)
Definition ResourceInstance_ (s : State) (addr : addrs.AbsResourceInstance)
    : option ResourceInstance :=
  snd <$> List.find (λ e, bool_decide (fst e = addr)) (instances s).

(** [ResourceInstance.HasCurrent], true for a non-nil instance with a
    current object. The current object is returned with the answer: the
    code reads [resInstance.Current] only under this test. *)
Definition current (i : option ResourceInstance)
    : option ResourceInstanceObjectSrc :=
  match i with
  | Some inst => Current inst
  | None => None
  end.

Definition HasCurrent (i : option ResourceInstance) : bool :=
  bool_decide (is_Some (current i)).

End states.

(** ** The provider protocol: requests and responses *)

Module providers.

Record ImportedResource : Type :=
  { imp_TypeName : string; imp_State : cty.Value; imp_Private : string }.

Record ConfigureRequest : Type :=
  { conf_Config : cty.Value }.

Record ConfigureResponse : Type :=
  { conf_Diagnostics : tfdiags.Diagnostics }.

Record ImportResourceStateRequest : Type :=
  { import_TypeName : string; import_ID : string }.

Record ImportResourceStateResponse : Type :=
  { ImportedResources : list ImportedResource;
    import_Diagnostics : tfdiags.Diagnostics }.

Record ReadResourceRequest : Type :=
  { read_TypeName : string; read_PriorState : cty.Value;
    read_Private : string }.

Record ReadResourceResponse : Type :=
  { read_NewState : cty.Value; read_Diagnostics : tfdiags.Diagnostics;
    read_NewPrivate : string }.

(** [PlannedPrivate] is a byte slice: [None] is the nil slice of a request
    literal that leaves the field out. *)
Record ApplyResourceChangeRequest : Type :=
  { apply_TypeName : string; PriorState : cty.Value;
    PlannedState : cty.Value; Config : cty.Value;
    PlannedPrivate : option string }.

Record ApplyResourceChangeResponse : Type :=
  { apply_NewState : cty.Value; apply_Private : string;
    apply_Diagnostics : tfdiags.Diagnostics }.

End providers.
Import providers.

(** ** What a run does to the world *)

Module hclog.
Inductive Level : Type := Debug | Error.
End hclog.

(** [discovery.PluginMeta] *)
Record PluginMeta : Type :=
  { meta_Name : string; meta_Version : string; Path : string }.

(** The two lines [DeleteResource] prints on standard output. *)
Inductive StdoutLine : Type :=
| WouldTryToDelete (resType resID : string)
| FinishedDeleting (resType resID : string).

(** The logrus lines of level Info and above; the Debug lines are left out. *)
Inductive LogLine : Type :=
| FailedToInstall (provider : string)
| FailedToLoad (path : string)
| FailedToConfigure
| FailedToGetState
| UsingState (path : string)
| FailedToLookup
| FailedToGetID (addr : addrs.AbsResourceInstance)
| SkipNotManaged (resType resID : string)
| SkipImportFailed (resType resID : string)
| SkipReadFailed (resType resID : string)
| NotExistsAnymore (resType resID : string)
| FailedToDelete (resType resID : string)
| TotalDeleted (n : nat).

(** The events of a run, in the order they happen. A call to the plugin
    process is recorded with the process it goes to, the request and the
    response. *)
Inductive Event : Type :=
| Install (providerName constraint : string)
| Launch (path : string) (loglevel : hclog.Level)
| ReadStateFile (path : string)
| CallConfigure (pid : nat) (req : ConfigureRequest) (resp : ConfigureResponse)
| CallImportResourceState (pid : nat) (req : ImportResourceStateRequest)
    (resp : ImportResourceStateResponse)
| CallReadResource (pid : nat) (req : ReadResourceRequest)
    (resp : ReadResourceResponse)
| CallApplyResourceChange (pid : nat) (req : ApplyResourceChangeRequest)
    (resp : ApplyResourceChangeResponse)
| Stdout (line : StdoutLine)
| Log (line : LogLine).

Definition Trace : Type := list Event.

(** [type Provider interface]: the plugin process behind a handle. What it
    answers may depend on everything that happened before the call. *)
Record Provider : Type :=
  { pid : nat;
    Configure_ : Trace → ConfigureRequest → ConfigureResponse;
    ReadResource_ : Trace → ReadResourceRequest → ReadResourceResponse;
    ApplyResourceChange_ :
      Trace → ApplyResourceChangeRequest → ApplyResourceChangeResponse;
    ImportResourceState_ :
      Trace → ImportResourceStateRequest → ImportResourceStateResponse }.

(** [type TerraformProvider struct { provider Provider }] *)
Record TerraformProvider : Type := { provider : Provider }.

(** A Go [error] value, by what raised it. *)
Inductive error : Type :=
| ErrInstall
| ErrPlugin
| ErrStateFile
| ErrUnmarshal (e : json.Error).

(** Everything outside the program: the parsed flags, the installer, the
    plugin launcher, the file system and the Terraform library calls whose
    code is not part of the repository. *)
Record Env : Type :=
  { dryRun : bool;
    logDebug : bool;
    pathToState : string;
    InstallProvider_ : string → string →
      PluginMeta * tfdiags.Diagnostics * option error;
    providerFactory_ : PluginMeta → hclog.Level → option Provider;
    awsProviderConfig : cty.Value;
    files : gmap string string;
    readStateFile : string → option states.State;
    lookupAllResourceInstanceAddrs : states.State →
      list addrs.AbsResourceInstance * tfdiags.Diagnostics }.

(** ** A monad for the run: the trace so far, and leaving the process *)

(** A computation either yields a value or leaves the run with an exit
    status: [os.Exit(mainExitCode())] is all [main] does, so [return c] from
    inside the loops of [mainExitCode] and the [os.Exit(1)] of
    [logrus.Fatal] are both [leave]. *)
Definition M (A : Type) : Type := Trace → (A + Z) * Trace.

Definition ret {A} (a : A) : M A := λ tr, (inl a, tr).

Definition bind {A B} (m : M A) (k : A → M B) : M B :=
  λ tr, match m tr with
        | (inl a, tr') => k a tr'
        | (inr code, tr') => (inr code, tr')
        end.

Definition leave {A} (code : Z) : M A := λ tr, (inr code, tr).

Definition emit (e : Event) : M unit := λ tr, (inl tt, tr ++ [e]).

(** A call to the plugin process: the answer is the provider's at this point
    of the run, and the call is recorded. *)
Definition call {Req Resp} (answer : Trace → Req → Resp)
    (record : Req → Resp → Event) (req : Req) : M Resp :=
  λ tr, let resp := answer tr req in (inl resp, tr ++ [record req resp]).

Declare Scope run_scope.
Delimit Scope run_scope with run.
Notation "'let*' x := m 'in' k" := (bind m (λ x, k))
  (at level 10, x pattern, m at level 100, k at level 200) : run_scope.
Notation "m ;;; k" := (bind m (λ _, k))
  (at level 100, right associativity) : run_scope.
Open Scope run_scope.

(** ** The provider facade called by [main.go] *)

Definition ImportResource (p : TerraformProvider) (resType resID : string)
    : M ImportResourceStateResponse :=
  let* response :=
    call (ImportResourceState_ (provider p))
      (CallImportResourceState (pid (provider p)))
      {| import_TypeName := resType; import_ID := resID |} in
  ret response.

Definition ReadResource (p : TerraformProvider) (r : ImportedResource)
    : M ReadResourceResponse :=
  let* response :=
    call (ReadResource_ (provider p)) (CallReadResource (pid (provider p)))
      {| read_TypeName := imp_TypeName r;
         read_PriorState := imp_State r;
         read_Private := imp_Private r |} in
  ret response.

Definition applyResourceChange (p : TerraformProvider) (resType : string)
    (readResp : ReadResourceResponse) : M ApplyResourceChangeResponse :=
  let* response :=
    call (ApplyResourceChange_ (provider p))
      (CallApplyResourceChange (pid (provider p)))
      {| apply_TypeName := resType;
         PriorState := read_NewState readResp;
         PlannedState := cty.NullVal cty.DynamicPseudoType;
         Config := cty.NullVal cty.DynamicPseudoType;
         PlannedPrivate := Some (read_NewPrivate readResp) |} in
  ret response.

Definition DeleteResource (p : TerraformProvider) (resType resID : string)
    (readResp : ReadResourceResponse) (dryRun : bool) : M bool :=
  if dryRun then
    emit (Stdout (WouldTryToDelete resType resID)) ;;;
    ret true
  else
    let* respApply := applyResourceChange p resType readResp in
    if tfdiags.HasErrors (apply_Diagnostics respApply) then
      emit (Log (FailedToDelete resType resID)) ;;;
      ret false
    else
      emit (Stdout (FinishedDeleting resType resID)) ;;;
      ret true.

(** ** The provider facade with the force-destroy patch *)

(** [newTerraformProvider]: the handle of a freshly launched plugin, or the
    error of the factory. *)
Definition newTerraformProvider (env : Env) (path : string) (logDebug : bool)
    : M (TerraformProvider + error) :=
  let m := {| meta_Name := ""; meta_Version := ""; Path := path |} in
  let hcLoglevel := if logDebug then hclog.Debug else hclog.Error in
  emit (Launch path hcLoglevel) ;;;
  match providerFactory_ env m hcLoglevel with
  | None => ret (inr ErrPlugin)
  | Some p => ret (inl {| provider := p |})
  end.

Definition configure (p : TerraformProvider) (config : cty.Value)
    : M tfdiags.Diagnostics :=
  let* respConf :=
    call (Configure_ (provider p)) (CallConfigure (pid (provider p)))
      {| conf_Config := config |} in
  ret (conf_Diagnostics respConf).

Definition importResource (p : TerraformProvider) (resType resID : string)
    : M ImportResourceStateResponse :=
  let* response :=
    call (ImportResourceState_ (provider p))
      (CallImportResourceState (pid (provider p)))
      {| import_TypeName := resType; import_ID := resID |} in
  ret response.

Definition readResource (p : TerraformProvider) (r : ImportedResource)
    : M ReadResourceResponse :=
  let* response :=
    call (ReadResource_ (provider p)) (CallReadResource (pid (provider p)))
      {| read_TypeName := imp_TypeName r;
         read_PriorState := imp_State r;
         read_Private := imp_Private r |} in
  ret response.

(** [destroy]. The request is built before it is sent: a panic of the patch
    happens before any call reaches the plugin, and an unrecovered panic
    ends a Go process with status 2. *)
Definition destroy (p : TerraformProvider) (resType : string)
    (currentState : cty.Value) : M ApplyResourceChangeResponse :=
  match enableForceDestroyAttributes currentState with
  | None => leave 2
  | Some patched =>
      let* response :=
        call (ApplyResourceChange_ (provider p))
          (CallApplyResourceChange (pid (provider p)))
          {| apply_TypeName := resType;
             PriorState := patched;
             PlannedState := cty.NullVal cty.DynamicPseudoType;
             Config := cty.NullVal cty.DynamicPseudoType;
             PlannedPrivate := None |} in
      ret response
  end.

(** ** The orchestrator: [main.go] *)

(** [getResourceID], on the current object [resInstance.Current] points
    to. *)
Definition getResourceID (current : states.ResourceInstanceObjectSrc)
    : string * option error :=
  let result := {| ID := "" |} in
  let '(result, err) := Unmarshal (states.AttrsJSON current) result in
  match err with
  | Some e => ("", Some (ErrUnmarshal e))
  | None => (ID result, None)
  end.

(** Modelled from the spec: [getState], whose file is not among the sources.
    Given a path it produces the snapshot or fails, and it fails when the
    file is missing, unreadable or structurally invalid. *)
Definition getState (env : Env) (path : string)
    : M (states.State + error) :=
  emit (ReadStateFile path) ;;;
  match files env !! path with
  | None => ret (inr ErrStateFile)
  | Some content =>
      match readStateFile env content with
      | None => ret (inr ErrStateFile)
      | Some state => ret (inl state)
      end
  end.

(** [InstallProvider(provider, constraint)], the installer at the boundary
    of the program. *)
Definition InstallProvider (env : Env) (providerName constraint : string)
    : M (PluginMeta * tfdiags.Diagnostics * option error) :=
  emit (Install providerName constraint) ;;;
  ret (InstallProvider_ env providerName constraint).

(** The body of [for _, resImp := range importResp.ImportedResources];
    the result is [deletedResourcesCount] after the iteration. *)
Definition forImportedResource (env : Env) (p : TerraformProvider)
    (resType resID : string) (resImp : ImportedResource)
    (deletedResourcesCount : nat) : M nat :=
  let* readResp := ReadResource p resImp in
  if tfdiags.HasErrors (read_Diagnostics readResp) then
    emit (Log (SkipReadFailed resType resID)) ;;;
    ret deletedResourcesCount
  else
    let resourceNotExists := cty.IsNull (read_NewState readResp) in
    if resourceNotExists then
      emit (Log (NotExistsAnymore (imp_TypeName resImp) resID)) ;;;
      ret deletedResourcesCount
    else
      let* deleted := DeleteResource p resType resID readResp (dryRun env) in
      if deleted then ret (S deletedResourcesCount)
      else ret deletedResourcesCount.

Fixpoint rangeImportedResources (env : Env) (p : TerraformProvider)
    (resType resID : string) (imported : list ImportedResource)
    (deletedResourcesCount : nat) : M nat :=
  match imported with
  | [] => ret deletedResourcesCount
  | resImp :: rest =>
      let* count :=
        forImportedResource env p resType resID resImp deletedResourcesCount in
      rangeImportedResources env p resType resID rest count
  end.

(** The body of [for _, resAddr := range resInstances]. *)
Definition forResourceInstance (env : Env) (p : TerraformProvider)
    (state : states.State) (resAddr : addrs.AbsResourceInstance)
    (deletedResourcesCount : nat) : M nat :=
  let resInstance := states.ResourceInstance_ state resAddr in
  match states.current resInstance with
  | None => ret deletedResourcesCount
  | Some current =>
      let resMode := addrs.Mode (addrs.inst_Resource (addrs.abs_Resource resAddr)) in
      let resType := addrs.Type_ (addrs.inst_Resource (addrs.abs_Resource resAddr)) in
      let '(resID, err) := getResourceID current in
      match err with
      | Some _ =>
          emit (Log (FailedToGetID resAddr)) ;;;
          leave 1
      | None =>
          if bool_decide (resMode ≠ addrs.ManagedResourceMode) then
            emit (Log (SkipNotManaged resType resID)) ;;;
            ret deletedResourcesCount
          else
            let* importResp := ImportResource p resType resID in
            if tfdiags.HasErrors (import_Diagnostics importResp) then
              emit (Log (SkipImportFailed resType resID)) ;;;
              ret deletedResourcesCount
            else
              rangeImportedResources env p resType resID
                (ImportedResources importResp) deletedResourcesCount
      end
  end.

Fixpoint rangeResourceInstances (env : Env) (p : TerraformProvider)
    (state : states.State) (resInstances : list addrs.AbsResourceInstance)
    (deletedResourcesCount : nat) : M nat :=
  match resInstances with
  | [] => ret deletedResourcesCount
  | resAddr :: rest =>
      let* count :=
        forResourceInstance env p state resAddr deletedResourcesCount in
      rangeResourceInstances env p state rest count
  end.

(** [mainExitCode], after [flag.Parse] has filled the flags of [env]. The
    provider methods it calls with the signatures of the later provider file
    ([NewTerraformProvider] with the debug flag, [Configure] with a ready
    configuration value) are that file's [newTerraformProvider] and
    [configure]. *)
Definition mainExitCode (env : Env) : M Z :=
  let provider := "aws" in
  let* (metaPlugin, tfDiagnostics, err) :=
    InstallProvider env provider "2.43.0" in
  if tfdiags.HasErrors tfDiagnostics then
    emit (Log (FailedToInstall provider)) ;;; ret 1%Z
  else if bool_decide (err ≠ None) then
    emit (Log (FailedToInstall provider)) ;;; ret 1%Z
  else
    let* p := newTerraformProvider env (Path metaPlugin) (logDebug env) in
    match p with
    | inr err => emit (Log (FailedToLoad (Path metaPlugin))) ;;; ret 1%Z
    | inl p =>
        let* tfDiagnostics := configure p (awsProviderConfig env) in
        (if tfdiags.HasErrors tfDiagnostics then
           emit (Log FailedToConfigure) ;;; leave 1
         else ret tt) ;;;
        let* state := getState env (pathToState env) in
        match state with
        | inr err => emit (Log FailedToGetState) ;;; ret 1%Z
        | inl state =>
            emit (Log (UsingState (pathToState env))) ;;;
            let '(resInstances, diagnostics) :=
              lookupAllResourceInstanceAddrs env state in
            if tfdiags.HasErrors diagnostics then
              emit (Log FailedToLookup) ;;; ret 1%Z
            else
              let* deletedResourcesCount :=
                rangeResourceInstances env p state resInstances 0 in
              emit (Log (TotalDeleted deletedResourcesCount)) ;;;
              ret 0%Z
        end
    end.

(** [main]: the exit status of the process and everything it did. *)
Definition main (env : Env) : Z * Trace :=
  match mainExitCode env [] with
  | (inl code, tr) => (code, tr)
  | (inr code, tr) => (code, tr)
  end.


(** ** Installing and initializing providers: [installProvider], [InitProviders] *)

Module discovery.

(** [discovery.Constraints]: every version, or the versions a parsed
    constraint allows. *)
Inductive Constraints : Type :=
| AllVersions
| NewConstraints (constraints : string).

(** The fields of [discovery.ProviderInstaller] that [installProvider]
    chooses; [Cache] is [None] for the nil cache. *)
Record ProviderInstaller : Type :=
  { Dir : string; Cache : option string; SkipVerify : bool }.

End discovery.

(** The errors [installProvider] and [InitProviders] build, by the message
    they are formatted from. *)
Inductive InitError : Type :=
| FailedToParseConstraint (cause : string)
| DiagnosticsErr (diagnostics : tfdiags.Diagnostics)
| FailedToInstallProvider (pName : string) (cause : InitError)
| FailedToLoadProvider (path : string) (cause : error)
| FailedToConfigureProvider (name version : string)
    (diagnostics : tfdiags.Diagnostics).

(** What [installProvider] and [InitProviders] call outside the sources:
    the parser of version constraints (the parsed constraints or the message
    of the error), the installer's [Get] (with the message of its error, if
    any) and [ProviderConfig], which knows the supported providers ([None]
    is its error). *)
Record Installers : Type :=
  { NewConstraint_ : string → string + string;
    Get_ : discovery.ProviderInstaller → string → discovery.Constraints →
      PluginMeta * tfdiags.Diagnostics * option string;
    ProviderConfig_ : string → option (cty.Value * string) }.

(** [Diagnostics.Append(err)]: the error becomes one more diagnostic of
    severity Error. *)
Definition Append (diags : tfdiags.Diagnostics) (err : string)
    : tfdiags.Diagnostics :=
  diags ++ [ {| tfdiags.severity := tfdiags.Error; tfdiags.summary := err |} ].

(** The zero value [discovery.PluginMeta{}]. *)
Definition noPluginMeta : PluginMeta :=
  {| meta_Name := ""; meta_Version := ""; Path := "" |}.

(** [installProvider]. The call of the installer's [Get] is the event
    [Install]. *)
Definition installProvider (w : Installers)
    (providerName constraint : string) (useCache : bool)
    : M (PluginMeta * option InitError) :=
  let installDir := ".terradozer" in
  let providerInstaller :=
    {| discovery.Dir := installDir;
       discovery.Cache :=
         if useCache then Some (installDir +:+ "/cache") else None;
       discovery.SkipVerify := false |} in
  let get (providerConstraint : discovery.Constraints) :=
    emit (Install providerName constraint) ;;;
    let '(meta, tfDiagnostics, err) :=
      Get_ w providerInstaller providerName providerConstraint in
    match err with
    | Some err =>
        let tfDiagnostics := Append tfDiagnostics err in
        ret (noPluginMeta, Some (DiagnosticsErr tfDiagnostics))
    | None => ret (meta, None)
    end in
  if bool_decide (constraint ≠ "") then
    match NewConstraint_ w constraint with
    | inr err => ret (noPluginMeta, Some (FailedToParseConstraint err))
    | inl constraints => get (discovery.NewConstraints constraints)
    end
  else get discovery.AllVersions.

(** The body of [for _, pName := range providerNames] in [InitProviders]:
    the map after the iteration, or the error the function returns with.
    The lines written with apex/log are not part of the trace. *)
Definition forProviderName (env : Env) (w : Installers) (pName : string)
    (providers : gmap string TerraformProvider)
    : M (gmap string TerraformProvider + InitError) :=
  match ProviderConfig_ w pName with
  | None => ret (inl providers)
  | Some (pConfig, pVersion) =>
      let* (metaPlugin, err) := installProvider w pName pVersion true in
      match err with
      | Some err => ret (inr (FailedToInstallProvider pName err))
      | None =>
          let* p := newTerraformProvider env (Path metaPlugin) (logDebug env) in
          match p with
          | inr err => ret (inr (FailedToLoadProvider (Path metaPlugin) err))
          | inl p =>
              let* tfDiagnostics := configure p pConfig in
              if tfdiags.HasErrors tfDiagnostics then
                ret (inr (FailedToConfigureProvider (meta_Name metaPlugin)
                            (meta_Version metaPlugin) tfDiagnostics))
              else ret (inl (<[pName := p]> providers))
          end
      end
  end.

Fixpoint rangeProviderNames (env : Env) (w : Installers)
    (providerNames : list string) (providers : gmap string TerraformProvider)
    : M (gmap string TerraformProvider + InitError) :=
  match providerNames with
  | [] => ret (inl providers)
  | pName :: rest =>
      let* result := forProviderName env w pName providers in
      match result with
      | inl providers => rangeProviderNames env w rest providers
      | inr err => ret (inr err)
      end
  end.

(** [InitProviders]: the map and a nil error, or the nil map ([None]) and
    the error. *)
Definition InitProviders (env : Env) (w : Installers)
    (providerNames : list string)
    : M (option (gmap string TerraformProvider) * option InitError) :=
  let providers : gmap string TerraformProvider := ∅ in
  let* result := rangeProviderNames env w providerNames providers in
  match result with
  | inl providers => ret (Some providers, None)
  | inr err => ret (None, Some err)
  end.
(** ** Auxiliary definitions for the properties *)

(** What the loop leaves under a key. *)
Definition patched (k : string) (v : cty.Value) : option cty.Value :=
  if isForceDestroyName k then
    if cty.EqualsBool (cty.Type_ v) then Some cty.True else None
  else Some v.

(** A bucket whose [force_destroy] attribute is a string. *)
Definition bucketWithStringFlag : cty.Value :=
  cty.ObjectVal
    (<["force_destroy" := cty.StringVal "false"]>
       {["id" := cty.StringVal "my-bucket"]}).

(** The requests of a trace, by operation. *)
Definition applyRequest (e : Event) : option ApplyResourceChangeRequest :=
  match e with CallApplyResourceChange _ req _ => Some req | _ => None end.

Definition applyRequests (tr : Trace) : list ApplyResourceChangeRequest :=
  omap applyRequest tr.

(** A bucket that is not to be deleted while it holds objects. *)
Definition guardedBucket : cty.Value :=
  cty.ObjectVal
    (<["force_destroy" := cty.False]> {["id" := cty.StringVal "my-bucket"]}).

Definition forcedBucket : cty.Value :=
  cty.ObjectVal
    (<["force_destroy" := cty.True]> {["id" := cty.StringVal "my-bucket"]}).

Definition guardedBucketRead : ReadResourceResponse :=
  {| read_NewState := guardedBucket; read_Diagnostics := [];
     read_NewPrivate := "" |}.

(** The null state a provider answers for a bucket that is gone: a null of
    the object type of the resource. *)
Definition goneBucket : cty.Value :=
  cty.NullVal (cty.Object {["id" := cty.String]}).

Definition importRequest (e : Event) : option ImportResourceStateRequest :=
  match e with CallImportResourceState _ req _ => Some req | _ => None end.

Definition importRequests (tr : Trace) : list ImportResourceStateRequest :=
  omap importRequest tr.

Definition readRequest (e : Event) : option ReadResourceRequest :=
  match e with CallReadResource _ req _ => Some req | _ => None end.

Definition readRequests (tr : Trace) : list ReadResourceRequest :=
  omap readRequest tr.

Definition configureRequest (e : Event) : option ConfigureRequest :=
  match e with CallConfigure _ req _ => Some req | _ => None end.

Definition configureRequests (tr : Trace) : list ConfigureRequest :=
  omap configureRequest tr.

Definition installation (e : Event) : option (string * string) :=
  match e with Install name constraint => Some (name, constraint) | _ => None end.

Definition installations (tr : Trace) : list (string * string) :=
  omap installation tr.

Definition launch (e : Event) : option string :=
  match e with Launch path _ => Some path | _ => None end.

Definition launches (tr : Trace) : list string := omap launch tr.

(** The plugin process an event is a call to, if it is a call. *)
Definition calledProcess (e : Event) : option nat :=
  match e with
  | CallConfigure q _ _ | CallImportResourceState q _ _
  | CallReadResource q _ _ | CallApplyResourceChange q _ _ => Some q
  | _ => None
  end.

Definition calledProcesses (tr : Trace) : list nat := omap calledProcess tr.

(** A [DeleteResource] that returns true has printed one line on standard
    output, and nothing else prints there: the destroys that succeeded are
    the lines of standard output. *)
Definition succeededDestroy (e : Event) : option StdoutLine :=
  match e with Stdout line => Some line | _ => None end.

Definition succeededDestroys (tr : Trace) : list StdoutLine :=
  omap succeededDestroy tr.

(** The total the run reports in its last log line. *)
Definition reportedTotal (tr : Trace) : option nat :=
  match last tr with
  | Some (Log (TotalDeleted n)) => Some n
  | _ => None
  end.

(** The events the two loops of [mainExitCode] can add to a trace when they
    drive the plugin process [q]. *)
Definition fromLoop (q : nat) (e : Event) : Prop :=
  match e with
  | CallImportResourceState q' _ _ | CallReadResource q' _ _
  | CallApplyResourceChange q' _ _ => q' = q
  | Stdout _ | Log _ => True
  | Install _ _ | Launch _ _ | ReadStateFile _ | CallConfigure _ _ _ => False
  end.

(** The current object of the instance at an address, if it has one. *)
Definition currentAt (state : states.State)
    (resAddr : addrs.AbsResourceInstance)
    : option states.ResourceInstanceObjectSrc :=
  states.current (states.ResourceInstance_ state resAddr).

Definition modeOf (resAddr : addrs.AbsResourceInstance) : addrs.ResourceMode :=
  addrs.Mode (addrs.inst_Resource (addrs.abs_Resource resAddr)).

Definition typeOf (resAddr : addrs.AbsResourceInstance) : string :=
  addrs.Type_ (addrs.inst_Resource (addrs.abs_Resource resAddr)).

(** The ID of every current object decodes. *)
Definition decodes (state : states.State)
    (resAddr : addrs.AbsResourceInstance) : Prop :=
  ∀ current, currentAt state resAddr = Some current →
             (getResourceID current).2 = None.

(** The import an instance is to be attempted with: one for a managed
    instance with a current object, none otherwise. *)
Definition attempt (state : states.State)
    (resAddr : addrs.AbsResourceInstance) : list ImportResourceStateRequest :=
  match currentAt state resAddr with
  | Some current =>
      if bool_decide (modeOf resAddr = addrs.ManagedResourceMode) then
        [ {| import_TypeName := typeOf resAddr;
             import_ID := (getResourceID current).1 |} ]
      else []
  | None => []
  end.

(** What [mainExitCode] passes on from one step of its start to the next. *)
Definition launchLevel (env : Env) : hclog.Level :=
  if logDebug env then hclog.Debug else hclog.Error.

Definition pluginMeta (path : string) : PluginMeta :=
  {| meta_Name := ""; meta_Version := ""; Path := path |}.

Definition configuration (env : Env) : ConfigureRequest :=
  {| conf_Config := awsProviderConfig env |}.

(** The plugin the installer delivered, when it reported no error. *)
Definition installed (env : Env) : option PluginMeta :=
  let '(metaPlugin, tfDiagnostics, err) := InstallProvider_ env "aws" "2.43.0" in
  if tfdiags.HasErrors tfDiagnostics then None
  else if bool_decide (err ≠ None) then None
  else Some metaPlugin.

(** The plugin process the run talks to, when it came up. *)
Definition launched (env : Env) : option Provider :=
  match installed env with
  | Some metaPlugin =>
      providerFactory_ env (pluginMeta (Path metaPlugin)) (launchLevel env)
  | None => None
  end.

(** The trace of a start that went well, up to the loop. *)
Definition startTrace (env : Env) (metaPlugin : PluginMeta) (prov : Provider)
    : Trace :=
  let upToLaunch :=
    [Install "aws" "2.43.0"; Launch (Path metaPlugin) (launchLevel env)] in
  upToLaunch
  ++ [CallConfigure (pid prov) (configuration env)
        (Configure_ prov upToLaunch (configuration env));
      ReadStateFile (pathToState env);
      Log (UsingState (pathToState env))].

(** The run gets as far as the loop over [resInstances]: the provider is
    installed, launched and configured without error, the state file is
    read and its resource instances are enumerated. *)
Definition reachesLoop (env : Env) (metaPlugin : PluginMeta) (prov : Provider)
    (state : states.State) (resInstances : list addrs.AbsResourceInstance)
    : Prop :=
  installed env = Some metaPlugin
  ∧ launched env = Some prov
  ∧ tfdiags.HasErrors
      (conf_Diagnostics
         (Configure_ prov
            [Install "aws" "2.43.0"; Launch (Path metaPlugin) (launchLevel env)]
            (configuration env))) = false
  ∧ (∃ content, files env !! pathToState env = Some content
                ∧ readStateFile env content = Some state)
  ∧ (∃ diagnostics,
       lookupAllResourceInstanceAddrs env state = (resInstances, diagnostics)
       ∧ tfdiags.HasErrors diagnostics = false).

(** The payloads [json.Unmarshal] refuses for a [ResourceID]: bytes that are
    not JSON, a document that is neither an object nor null, and an object
    with a member for [id] whose value is neither a string nor null. *)
Definition refused_ID (v : json.Document) : bool :=
  match v with json.String _ | json.Null => false | _ => true end.

Definition undecodable (data : json.Bytes) : Prop :=
  match data with
  | json.Invalid _ => True
  | json.Valid json.Null => False
  | json.Valid (json.Object members) =>
      Exists (λ member, selects_id member.1 = true
                        ∧ refused_ID member.2 = true) members
  | json.Valid _ => True
  end.

(** The payloads that are an object without a member for [id]. *)
Definition lacks_id (data : json.Bytes) : Prop :=
  ∃ members, data = json.Valid (json.Object members)
             ∧ Forall (λ member, selects_id member.1 = false) members.

(** *** A small world to run the program in *)

Definition managed (type name : string) : addrs.AbsResourceInstance :=
  {| addrs.Module_ := [];
     addrs.abs_Resource :=
       {| addrs.inst_Resource :=
            {| addrs.Mode := addrs.ManagedResourceMode;
               addrs.Type_ := type; addrs.Name := name |};
          addrs.Key := addrs.NoKey |} |}.

Definition dataSource (type name : string) : addrs.AbsResourceInstance :=
  {| addrs.Module_ := [];
     addrs.abs_Resource :=
       {| addrs.inst_Resource :=
            {| addrs.Mode := addrs.DataResourceMode;
               addrs.Type_ := type; addrs.Name := name |};
          addrs.Key := addrs.NoKey |} |}.

Definition withAttrs (data : json.Bytes) : states.ResourceInstance :=
  {| states.Current :=
       Some {| states.AttrsJSON := data; states.Private := "" |} |}.

(** An instance whose attributes are [{"id": id}]. *)
Definition withID (id : string) : states.ResourceInstance :=
  withAttrs (json.Valid (json.Object [("id", json.String id)])).

Definition anError : tfdiags.Diagnostics :=
  [ {| tfdiags.severity := tfdiags.Error; tfdiags.summary := "no such resource" |} ].

(** A provider that cannot import roles, finds every other resource where
    the state says, and deletes what it is asked to. *)
Definition sampleProvider : Provider :=
  {| pid := 4711;
     Configure_ := λ _ _, {| conf_Diagnostics := [] |};
     ReadResource_ := λ _ req,
       {| read_NewState := read_PriorState req; read_Diagnostics := [];
          read_NewPrivate := read_Private req |};
     ApplyResourceChange_ := λ _ req,
       {| apply_NewState := cty.NullVal cty.DynamicPseudoType;
          apply_Private := ""; apply_Diagnostics := [] |};
     ImportResourceState_ := λ _ req,
       if bool_decide (import_TypeName req = "aws_iam_role") then
         {| ImportedResources := []; import_Diagnostics := anError |}
       else
         {| ImportedResources :=
              [ {| imp_TypeName := import_TypeName req;
                   imp_State :=
                     cty.ObjectVal {["id" := cty.StringVal (import_ID req)]};
                   imp_Private := "" |} ];
            import_Diagnostics := [] |} |}.

Definition sampleMeta : PluginMeta :=
  {| meta_Name := "aws"; meta_Version := "2.43.0";
     Path := ".terradozer/terraform-provider-aws_v2.43.0_x4" |}.

Definition sampleEnv (dry : bool) (stateFiles : gmap string string)
    (state : states.State) : Env :=
  {| dryRun := dry;
     logDebug := false;
     pathToState := "terraform.tfstate";
     InstallProvider_ := λ _ _, (sampleMeta, [], None);
     providerFactory_ := λ _ _, Some sampleProvider;
     awsProviderConfig :=
       cty.ObjectVal {["region" := cty.StringVal "us-west-2"]};
     files := stateFiles;
     readStateFile := λ _, Some state;
     lookupAllResourceInstanceAddrs := λ s, (fst <$> states.instances s, []) |}.

Definition oneStateFile : gmap string string :=
  {["terraform.tfstate" := "{ }"]}.

(** A role, whose import fails, between two buckets. *)
Definition threeResources : states.State :=
  {| states.instances :=
       [ (managed "aws_s3_bucket" "logs", withID "logs-bucket");
         (managed "aws_iam_role" "ci", withID "ci-role");
         (managed "aws_s3_bucket" "assets", withID "assets-bucket") ] |}.

(** A data source whose attributes are not JSON. *)
Definition brokenDataSource : states.State :=
  {| states.instances :=
       [ (dataSource "aws_ami" "ubuntu", withAttrs (json.Invalid "{")) ] |}.

(** A managed instance whose attributes have no [id]. *)
Definition noID : states.ResourceInstanceObjectSrc :=
  {| states.AttrsJSON :=
       json.Valid (json.Object [("arn", json.String "arn:aws:s3:::logs")]);
     states.Private := "" |}.

(** A managed instance whose [id] is a number. *)
Definition numericIDObject : states.ResourceInstanceObjectSrc :=
  {| states.AttrsJSON := json.Valid (json.Object [("id", json.Number "42")]);
     states.Private := "" |}.

Definition numericID : states.State :=
  {| states.instances :=
       [ (managed "aws_s3_bucket" "logs",
          {| states.Current := Some numericIDObject |}) ] |}.

(** A world without a state file. *)
Definition noStateFileEnv : Env := sampleEnv false ∅ threeResources.

(** The request [ReadResource] sends for an imported resource. *)
Definition readRequestFor (r : ImportedResource) : ReadResourceRequest :=
  {| read_TypeName := imp_TypeName r;
     read_PriorState := imp_State r;
     read_Private := imp_Private r |}.

(** An imported bucket, and a provider that finds it gone. *)
Definition importedBucket : ImportedResource :=
  {| imp_TypeName := "aws_s3_bucket";
     imp_State := cty.ObjectVal {["id" := cty.StringVal "logs-bucket"]};
     imp_Private := "" |}.

Definition providerOfGoneResources : Provider :=
  {| pid := 4712;
     Configure_ := Configure_ sampleProvider;
     ReadResource_ := λ _ req,
       {| read_NewState := goneBucket; read_Diagnostics := [];
          read_NewPrivate := "" |};
     ApplyResourceChange_ := ApplyResourceChange_ sampleProvider;
     ImportResourceState_ := ImportResourceState_ sampleProvider |}.

(** The state [getState] hands to the run, when there is one. *)
Definition stateRead (env : Env) : option states.State :=
  files env !! pathToState env ≫= readStateFile env.

(** *** The shape of the loop's trace *)

(** The request [applyResourceChange] sends after a read. *)
Definition applyRequestFor (resType : string) (readResp : ReadResourceResponse)
    : ApplyResourceChangeRequest :=
  {| apply_TypeName := resType;
     PriorState := read_NewState readResp;
     PlannedState := cty.NullVal cty.DynamicPseudoType;
     Config := cty.NullVal cty.DynamicPseudoType;
     PlannedPrivate := Some (read_NewPrivate readResp) |}.

(** The request [ImportResource] sends for an instance. *)
Definition importRequestFor (resAddr : addrs.AbsResourceInstance)
    (current : states.ResourceInstanceObjectSrc) : ImportResourceStateRequest :=
  {| import_TypeName := typeOf resAddr;
     import_ID := (getResourceID current).1 |}.

(** What one imported resource can add to the trace: the five ways through
    the body of the inner loop. *)
Inductive importedEvents (dry : bool) (q : nat) (resType resID : string)
    (resImp : ImportedResource) : list Event → Prop :=
| imported_read_failed readResp :
    tfdiags.HasErrors (read_Diagnostics readResp) = true →
    importedEvents dry q resType resID resImp
      [CallReadResource q (readRequestFor resImp) readResp;
       Log (SkipReadFailed resType resID)]
| imported_gone readResp :
    tfdiags.HasErrors (read_Diagnostics readResp) = false →
    cty.IsNull (read_NewState readResp) = true →
    importedEvents dry q resType resID resImp
      [CallReadResource q (readRequestFor resImp) readResp;
       Log (NotExistsAnymore (imp_TypeName resImp) resID)]
| imported_would_delete readResp :
    dry = true →
    tfdiags.HasErrors (read_Diagnostics readResp) = false →
    cty.IsNull (read_NewState readResp) = false →
    importedEvents dry q resType resID resImp
      [CallReadResource q (readRequestFor resImp) readResp;
       Stdout (WouldTryToDelete resType resID)]
| imported_delete_failed readResp applyResp :
    dry = false →
    tfdiags.HasErrors (read_Diagnostics readResp) = false →
    cty.IsNull (read_NewState readResp) = false →
    tfdiags.HasErrors (apply_Diagnostics applyResp) = true →
    importedEvents dry q resType resID resImp
      [CallReadResource q (readRequestFor resImp) readResp;
       CallApplyResourceChange q (applyRequestFor resType readResp) applyResp;
       Log (FailedToDelete resType resID)]
| imported_deleted readResp applyResp :
    dry = false →
    tfdiags.HasErrors (read_Diagnostics readResp) = false →
    cty.IsNull (read_NewState readResp) = false →
    tfdiags.HasErrors (apply_Diagnostics applyResp) = false →
    importedEvents dry q resType resID resImp
      [CallReadResource q (readRequestFor resImp) readResp;
       CallApplyResourceChange q (applyRequestFor resType readResp) applyResp;
       Stdout (FinishedDeleting resType resID)].

(** What one resource instance can add to the trace: the five ways through
    the body of the outer loop. *)
Inductive instanceEvents (dry : bool) (q : nat) (state : states.State)
    (resAddr : addrs.AbsResourceInstance) : list Event → Prop :=
| instance_no_current :
    currentAt state resAddr = None →
    instanceEvents dry q state resAddr []
| instance_id_not_decoded current :
    currentAt state resAddr = Some current →
    (getResourceID current).2 ≠ None →
    instanceEvents dry q state resAddr [Log (FailedToGetID resAddr)]
| instance_not_managed current :
    currentAt state resAddr = Some current →
    (getResourceID current).2 = None →
    modeOf resAddr ≠ addrs.ManagedResourceMode →
    instanceEvents dry q state resAddr
      [Log (SkipNotManaged (typeOf resAddr) (getResourceID current).1)]
| instance_import_failed current importResp :
    currentAt state resAddr = Some current →
    (getResourceID current).2 = None →
    modeOf resAddr = addrs.ManagedResourceMode →
    tfdiags.HasErrors (import_Diagnostics importResp) = true →
    instanceEvents dry q state resAddr
      [CallImportResourceState q (importRequestFor resAddr current) importResp;
       Log (SkipImportFailed (typeOf resAddr) (getResourceID current).1)]
| instance_imported current importResp blocks :
    currentAt state resAddr = Some current →
    (getResourceID current).2 = None →
    modeOf resAddr = addrs.ManagedResourceMode →
    tfdiags.HasErrors (import_Diagnostics importResp) = false →
    Forall2 (importedEvents dry q (typeOf resAddr) (getResourceID current).1)
      (ImportedResources importResp) blocks →
    instanceEvents dry q state resAddr
      (CallImportResourceState q (importRequestFor resAddr current) importResp
       :: concat blocks).

(** The events of the start of a run: nothing that touches a resource. *)
Definition startEvent (e : Event) : Prop :=
  match e with
  | Install _ _ | Launch _ _ | ReadStateFile _ | CallConfigure _ _ _ | Log _ =>
      True
  | CallImportResourceState _ _ _ | CallReadResource _ _ _
  | CallApplyResourceChange _ _ _ | Stdout _ => False
  end.

(** The reads a trace owes to its imports: every resource of every import
    response without errors, in order. *)
Definition importedBy (e : Event) : list ReadResourceRequest :=
  match e with
  | CallImportResourceState _ _ importResp =>
      if tfdiags.HasErrors (import_Diagnostics importResp) then []
      else readRequestFor <$> ImportedResources importResp
  | _ => []
  end.

(** Every apply request of a trace comes right after a read call to the
    same process that found the resource without error, and carries the new
    state of that read as its prior state. [previous] is the event before
    the trace. *)
Fixpoint appliesFollowReads (previous : option Event) (tr : Trace) : Prop :=
  match tr with
  | [] => True
  | e :: rest =>
      match e with
      | CallApplyResourceChange q req _ =>
          match previous with
          | Some (CallReadResource q' _ readResp) =>
              q' = q
              ∧ PriorState req = read_NewState readResp
              ∧ cty.IsNull (read_NewState readResp) = false
              ∧ tfdiags.HasErrors (read_Diagnostics readResp) = false
          | _ => False
          end
      | _ => True
      end
      ∧ appliesFollowReads (Some e) rest
  end.

(** A read that found the resource: no error and a state that is not
    null. *)
Definition readFound (e : Event) : bool :=
  match e with
  | CallReadResource _ _ readResp =>
      negb (tfdiags.HasErrors (read_Diagnostics readResp))
      && negb (cty.IsNull (read_NewState readResp))
  | _ => false
  end.

(** An apply the provider answered without error. *)
Definition applied (e : Event) : bool :=
  match e with
  | CallApplyResourceChange _ _ applyResp =>
      negb (tfdiags.HasErrors (apply_Diagnostics applyResp))
  | _ => false
  end.

(** The state of a run that never got one. *)
Definition noState : states.State := {| states.instances := [] |}.

(** A bucket, an instance whose [id] is a number, and another bucket. *)
Definition brokenInTheMiddle : states.State :=
  {| states.instances :=
       [ (managed "aws_s3_bucket" "logs", withID "logs-bucket");
         (managed "aws_iam_role" "ci",
          {| states.Current := Some numericIDObject |});
         (managed "aws_s3_bucket" "assets", withID "assets-bucket") ] |}.

(** *** Initializing providers *)

(** The providers [ProviderConfig] knows. *)
Definition supported (w : Installers) (pName : string) : Prop :=
  is_Some (ProviderConfig_ w pName).

(** The version [ProviderConfig] asks for, with the name it is for. *)
Definition requestOf (w : Installers) (pName : string)
    : option (string * string) :=
  match ProviderConfig_ w pName with
  | Some (_, pVersion) => Some (pName, pVersion)
  | None => None
  end.

(** The versions the installer is asked for, by the text of the
    constraint: all versions for the empty text, none when the text does
    not parse. *)
Definition versionsFor (w : Installers) (constraint : string)
    : option discovery.Constraints :=
  if bool_decide (constraint ≠ "") then
    match NewConstraint_ w constraint with
    | inl constraints => Some (discovery.NewConstraints constraints)
    | inr _ => None
    end
  else Some discovery.AllVersions.

(** The installer [installProvider] sets up. *)
Definition installerWith (useCache : bool) : discovery.ProviderInstaller :=
  {| discovery.Dir := ".terradozer";
     discovery.Cache := if useCache then Some ".terradozer/cache" else None;
     discovery.SkipVerify := false |}.

(** The process [q] has been configured with [config] in the trace, and has
    answered without error. *)
Definition configuredWith (tr : Trace) (q : nat) (config : cty.Value) : Prop :=
  ∃ resp, CallConfigure q {| conf_Config := config |} resp ∈ tr
          ∧ tfdiags.HasErrors (conf_Diagnostics resp) = false.

(** Installers that know the provider "aws" at "2.43.0" and take no other
    constraint text. *)
Definition sampleInstallers : Installers :=
  {| NewConstraint_ := λ constraint,
       if bool_decide (constraint = "2.43.0") then inl constraint
       else inr "Malformed constraint";
     Get_ := λ _ _ _, (sampleMeta, [], None);
     ProviderConfig_ := λ pName,
       if bool_decide (pName = "aws") then
         Some (cty.ObjectVal {["region" := cty.StringVal "us-west-2"]},
               "2.43.0")
       else None |}.

#[global] Instance supported_dec w pName : Decision (supported w pName).
Proof. unfold supported. apply _. Defined.

(** The provider "aws" asked for twice, around a provider nobody knows, and
    what initializing these three names does. *)
Definition awsTwice : list string := ["aws"; "google"; "aws"].

Definition awsConfig : cty.Value :=
  cty.ObjectVal {["region" := cty.StringVal "us-west-2"]}.

Definition awsTwiceTrace : Trace :=
  [ Install "aws" "2.43.0";
    Launch (Path sampleMeta) hclog.Error;
    CallConfigure 4711 {| conf_Config := awsConfig |} {| conf_Diagnostics := [] |};
    Install "aws" "2.43.0";
    Launch (Path sampleMeta) hclog.Error;
    CallConfigure 4711 {| conf_Config := awsConfig |} {| conf_Diagnostics := [] |} ].

Definition awsOnly : gmap string TerraformProvider :=
  {["aws" := {| provider := sampleProvider |}]}.

(** The request [destroy] sends for a patched state. *)
Definition destroyRequestFor (resType : string) (patchedState : cty.Value)
    : ApplyResourceChangeRequest :=
  {| apply_TypeName := resType;
     PriorState := patchedState;
     PlannedState := cty.NullVal cty.DynamicPseudoType;
     Config := cty.NullVal cty.DynamicPseudoType;
     PlannedPrivate := None |}.

(** The start of a run up to the launch, and the call that configures the
    launched plugin, with its answer at that point of the run. *)
Definition upToLaunch (env : Env) (metaPlugin : PluginMeta) : Trace :=
  [Install "aws" "2.43.0"; Launch (Path metaPlugin) (launchLevel env)].

Definition configureAnswer (env : Env) (metaPlugin : PluginMeta)
    (prov : Provider) : ConfigureResponse :=
  Configure_ prov (upToLaunch env metaPlugin) (configuration env).

Definition configureCall (env : Env) (metaPlugin : PluginMeta)
    (prov : Provider) : Event :=
  CallConfigure (pid prov) (configuration env)
    (configureAnswer env metaPlugin prov).

(** A state whose only instance is a managed bucket without an [id]. *)
Definition withoutID : states.State :=
  {| states.instances :=
       [ (managed "aws_s3_bucket" "logs", {| states.Current := Some noID |}) ] |}.

(** An instance the loop drives through the provider: it has a current
    object whose ID decodes, and it is a managed resource. *)
Definition driven (state : states.State)
    (resAddr : addrs.AbsResourceInstance) : Prop :=
  ∃ current, currentAt state resAddr = Some current
             ∧ (getResourceID current).2 = None
             ∧ modeOf resAddr = addrs.ManagedResourceMode.

(** What the block of an instance says about the plugin process [q]: every
    call in it goes to [q]; the block of a driven instance starts with the
    import request for it, and the block of any other instance has no call
    at all. *)
Definition drivenThrough (q : nat) (state : states.State)
    (resAddr : addrs.AbsResourceInstance) (block : list Event) : Prop :=
  Forall (λ q', q' = q) (calledProcesses block)
  ∧ (driven state resAddr →
     ∃ current importResp rest,
       currentAt state resAddr = Some current
       ∧ block = CallImportResourceState q (importRequestFor resAddr current)
                   importResp :: rest)
  ∧ (¬ driven state resAddr → calledProcesses block = []).

(** A state whose only instance is a data source, with an [id]. *)
Definition onlyDataSource : states.State :=
  {| states.instances := [ (dataSource "aws_ami" "ubuntu", withID "ami-1") ] |}.

(** The four ways [InitProviders] fails at a provider name, each with the
    error it returns and with what it did for that name before: nothing
    when the version constraint does not parse, the installation when the
    installer fails, the installation and the launch when the plugin does
    not come up, and all three steps when the plugin answers the
    configuration with an error. *)
Inductive failedAt (env : Env) (w : Installers) (pName : string)
    : InitError → list Event → Prop :=
| failed_constraint pConfig pVersion cause :
    ProviderConfig_ w pName = Some (pConfig, pVersion) →
    pVersion ≠ "" →
    NewConstraint_ w pVersion = inr cause →
    failedAt env w pName
      (FailedToInstallProvider pName (FailedToParseConstraint cause)) []
| failed_install pConfig pVersion diagnostics :
    ProviderConfig_ w pName = Some (pConfig, pVersion) →
    tfdiags.HasErrors diagnostics = true →
    failedAt env w pName
      (FailedToInstallProvider pName (DiagnosticsErr diagnostics))
      [Install pName pVersion]
| failed_launch pConfig pVersion metaPlugin err :
    ProviderConfig_ w pName = Some (pConfig, pVersion) →
    failedAt env w pName
      (FailedToLoadProvider (Path metaPlugin) err)
      [Install pName pVersion; Launch (Path metaPlugin) (launchLevel env)]
| failed_configure pConfig pVersion metaPlugin prov resp :
    ProviderConfig_ w pName = Some (pConfig, pVersion) →
    tfdiags.HasErrors (conf_Diagnostics resp) = true →
    failedAt env w pName
      (FailedToConfigureProvider (meta_Name metaPlugin)
         (meta_Version metaPlugin) (conf_Diagnostics resp))
      [Install pName pVersion;
       Launch (Path metaPlugin) (launchLevel env);
       CallConfigure (pid prov) {| conf_Config := pConfig |} resp].

(** * Properties *)

(** ** The force-destroy patch *)

Section patch.

Implicit Types (attrs elems : gmap string cty.Value) (k : string)
  (v : cty.Value).

Lemma patch_lookup elems k :
  map_fold patchAttr ∅ elems !! k = elems !! k ≫= patched k.
Proof.
  apply (map_fold_weak_ind
           (λ r (m : gmap string cty.Value), r !! k = m !! k ≫= patched k)).
  - by rewrite !lookup_empty.
  - intros i x m r Hfresh IH. unfold patchAttr.
    destruct (decide (i = k)) as [->|Hne].
    + rewrite lookup_insert_eq. simpl. unfold patched.
      destruct (isForceDestroyName k).
      * destruct (cty.EqualsBool (cty.Type_ x)).
        -- by rewrite lookup_insert_eq.
        -- rewrite IH, Hfresh. done.
      * by rewrite lookup_insert_eq.
    + rewrite (lookup_insert_ne m i k) by done. rewrite <- IH.
      destruct (isForceDestroyName i);
        [destruct (cty.EqualsBool (cty.Type_ x))|];
        try done; by rewrite lookup_insert_ne.
Qed.

Lemma AsValueMap_ObjectVal attrs :
  cty.AsValueMap (cty.ObjectVal attrs) = Some attrs.
Proof.
  unfold cty.AsValueMap. simpl.
  destruct (size attrs) eqn:Hsize; [|done].
  apply map_size_empty_iff in Hsize. by subst.
Qed.

Lemma enableForceDestroyAttributes_ObjectVal attrs :
  enableForceDestroyAttributes (cty.ObjectVal attrs)
  = Some (cty.ObjectVal (map_fold patchAttr ∅ attrs)).
Proof.
  unfold enableForceDestroyAttributes. simpl.
  by rewrite AsValueMap_ObjectVal.
Qed.

(** A boolean attribute with a force-destroy name is [true] in the
    result. *)
Lemma patch_forces_bool attrs k v :
  attrs !! k = Some v →
  isForceDestroyName k = true →
  cty.Type_ v = cty.Bool →
  map_fold patchAttr ∅ attrs !! k = Some cty.True.
Proof.
  intros Hk Hname Hty. rewrite patch_lookup, Hk. simpl.
  unfold patched. by rewrite Hname, Hty.
Qed.

(** An attribute with any other name is in the result as it was. *)
Lemma patch_keeps_other_names attrs k :
  isForceDestroyName k = false →
  map_fold patchAttr ∅ attrs !! k = attrs !! k.
Proof.
  intros Hname. rewrite patch_lookup. unfold patched. rewrite Hname.
  by destruct (attrs !! k).
Qed.

(** A payload without force-destroy names comes back with the same
    content. *)
Lemma patch_without_force_names attrs :
  (∀ k, isForceDestroyName k = true → attrs !! k = None) →
  enableForceDestroyAttributes (cty.ObjectVal attrs)
  = Some (cty.ObjectVal attrs).
Proof.
  intros Hnone. rewrite enableForceDestroyAttributes_ObjectVal.
  apply (f_equal (λ m, Some (cty.ObjectVal m))). apply map_eq. intros k.
  destruct (isForceDestroyName k) eqn:Hname.
  - rewrite patch_lookup, (Hnone k Hname). done.
  - by apply patch_keeps_other_names.
Qed.

(** An attribute with a force-destroy name and another type than boolean
    is not in the result. *)
Lemma patch_drops_non_bool attrs k v :
  attrs !! k = Some v →
  isForceDestroyName k = true →
  cty.Type_ v ≠ cty.Bool →
  map_fold patchAttr ∅ attrs !! k = None.
Proof.
  intros Hk Hname Hty. rewrite patch_lookup, Hk. simpl.
  unfold patched. rewrite Hname.
  destruct (cty.Type_ v); done.
Qed.

End patch.

(** Claim C1, at a payload where the code departs from it: the attribute
    named [force_destroy] has type string, so the claim has it pass through
    unchanged, and the patch function returns the payload without it. *)
Theorem C1_non_bool_flag_is_dropped :
  enableForceDestroyAttributes bucketWithStringFlag
  = Some (cty.ObjectVal {["id" := cty.StringVal "my-bucket"]}).
Proof.
  unfold bucketWithStringFlag.
  rewrite enableForceDestroyAttributes_ObjectVal.
  apply (f_equal (λ m, Some (cty.ObjectVal m))).
  apply map_eq. intros k. rewrite patch_lookup.
  destruct (decide (k = "force_destroy")) as [->|Hne].
  - rewrite lookup_insert_eq. by rewrite lookup_singleton_ne.
  - rewrite lookup_insert_ne by done.
    destruct (decide (k = "id")) as [->|Hid].
    + by rewrite lookup_singleton_eq.
    + by rewrite !lookup_singleton_ne.
Qed.

Lemma enableForceDestroyAttributes_guardedBucket :
  enableForceDestroyAttributes guardedBucket = Some forcedBucket.
Proof.
  unfold guardedBucket, forcedBucket.
  rewrite enableForceDestroyAttributes_ObjectVal.
  apply (f_equal (λ m, Some (cty.ObjectVal m))).
  apply map_eq. intros k. rewrite patch_lookup.
  destruct (decide (k = "force_destroy")) as [->|Hne].
  - by rewrite !lookup_insert_eq.
  - rewrite !lookup_insert_ne by done.
    destruct (decide (k = "id")) as [->|Hid].
    + by rewrite lookup_singleton_eq.
    + by rewrite !lookup_singleton_ne.
Qed.

Lemma guardedBucket_not_forced : guardedBucket ≠ forcedBucket.
Proof.
  intros Heq.
  apply (f_equal (λ v, match v with
                       | cty.ObjectVal attrs => attrs !! "force_destroy"
                       | _ => None
                       end)) in Heq.
  unfold guardedBucket, forcedBucket in Heq.
  rewrite !lookup_insert_eq in Heq. discriminate.
Qed.

(** ** The apply request *)

Lemma DeleteResource_request p resType resID readResp tr :
  applyRequests (DeleteResource p resType resID readResp false tr).2
  = applyRequests tr
    ++ [ {| apply_TypeName := resType;
            PriorState := read_NewState readResp;
            PlannedState := cty.NullVal cty.DynamicPseudoType;
            Config := cty.NullVal cty.DynamicPseudoType;
            PlannedPrivate := Some (read_NewPrivate readResp) |} ].
Proof.
  unfold DeleteResource, applyResourceChange, bind, call, ret, emit. simpl.
  destruct (tfdiags.HasErrors _); simpl;
    unfold applyRequests; rewrite !omap_app; simpl; by rewrite app_nil_r.
Qed.

(** The request [destroy] sends: the patched state as prior state, a null
    planned state and a null config. *)
Lemma destroy_request p resType currentState patchedState tr :
  enableForceDestroyAttributes currentState = Some patchedState →
  applyRequests (destroy p resType currentState tr).2
  = applyRequests tr
    ++ [ {| apply_TypeName := resType;
            PriorState := patchedState;
            PlannedState := cty.NullVal cty.DynamicPseudoType;
            Config := cty.NullVal cty.DynamicPseudoType;
            PlannedPrivate := None |} ].
Proof.
  intros Hpatch. unfold destroy. rewrite Hpatch.
  unfold bind, call, ret. simpl.
  unfold applyRequests. by rewrite omap_app.
Qed.

(** Claim C2, refuted as stated: a non-dry-run [DeleteResource] of a bucket
    whose [force_destroy] is false sends one apply request; its planned
    state and config are null, and its prior state is the refreshed state
    as read, [force_destroy] still false, which is not the patched state. *)
Lemma C2_DeleteResource_sends_unpatched_state :
  ∃ req,
    applyRequests
      (DeleteResource {| provider := sampleProvider |} "aws_s3_bucket"
         "my-bucket" guardedBucketRead false []).2
    = [req]
    ∧ PlannedState req = cty.NullVal cty.DynamicPseudoType
    ∧ Config req = cty.NullVal cty.DynamicPseudoType
    ∧ PriorState req = guardedBucket
    ∧ enableForceDestroyAttributes guardedBucket = Some forcedBucket
    ∧ PriorState req ≠ forcedBucket.
Proof.
  eexists. rewrite DeleteResource_request. simpl.
  split; [reflexivity|]. simpl.
  split; [reflexivity|]. split; [reflexivity|]. split; [reflexivity|].
  split.
  - apply enableForceDestroyAttributes_guardedBucket.
  - apply guardedBucket_not_forced.
Qed.

(** Claim C2, amended: the two revisions of the provider file build the
    apply request differently. [destroy], of the revision with the
    force-destroy patch, sends exactly one request whenever the patch
    returns a state: its prior state is that patched state, its planned
    state and its config are null. [DeleteResource] without the dry-run
    flag, of the revision [main.go] calls, which has no patch, sends exactly
    one request: its prior state is the refreshed state as it was read, its
    planned state and its config are null; and it returns whether the
    answer had no error. *)
Theorem C2_apply_request_of_each_revision
    p resType resID readResp currentState patchedState tr :
  enableForceDestroyAttributes currentState = Some patchedState →
  destroy p resType currentState tr
  = (inl (ApplyResourceChange_ (provider p) tr
            (destroyRequestFor resType patchedState)),
     tr ++ [CallApplyResourceChange (pid (provider p))
              (destroyRequestFor resType patchedState)
              (ApplyResourceChange_ (provider p) tr
                 (destroyRequestFor resType patchedState))])
  ∧ apply_TypeName (destroyRequestFor resType patchedState) = resType
  ∧ PriorState (destroyRequestFor resType patchedState) = patchedState
  ∧ PlannedState (destroyRequestFor resType patchedState)
    = cty.NullVal cty.DynamicPseudoType
  ∧ Config (destroyRequestFor resType patchedState)
    = cty.NullVal cty.DynamicPseudoType
  ∧ ∃ req,
      DeleteResource p resType resID readResp false tr
      = (inl (negb (tfdiags.HasErrors
                      (apply_Diagnostics
                         (ApplyResourceChange_ (provider p) tr req)))),
         tr ++ [CallApplyResourceChange (pid (provider p)) req
                  (ApplyResourceChange_ (provider p) tr req);
                if tfdiags.HasErrors
                     (apply_Diagnostics
                        (ApplyResourceChange_ (provider p) tr req))
                then Log (FailedToDelete resType resID)
                else Stdout (FinishedDeleting resType resID)])
      ∧ apply_TypeName req = resType
      ∧ PriorState req = read_NewState readResp
      ∧ PlannedState req = cty.NullVal cty.DynamicPseudoType
      ∧ Config req = cty.NullVal cty.DynamicPseudoType.
Proof.
  intros Hpatch. split; [|do 4 (split; [done|])].
  - unfold destroy. rewrite Hpatch. by unfold bind, call, ret.
  - exists (applyRequestFor resType readResp). split; [|done].
    unfold DeleteResource, applyResourceChange, bind, call, ret, emit. simpl.
    fold (applyRequestFor resType readResp).
    destruct (tfdiags.HasErrors _); simpl; by rewrite <- app_assoc.
Qed.

Lemma C2_apply_request_of_each_revision_witness :
  enableForceDestroyAttributes guardedBucket = Some forcedBucket
  ∧ destroy {| provider := sampleProvider |} "aws_s3_bucket" guardedBucket []
    = (inl (ApplyResourceChange_ sampleProvider []
              (destroyRequestFor "aws_s3_bucket" forcedBucket)),
       [] ++ [CallApplyResourceChange 4711
                (destroyRequestFor "aws_s3_bucket" forcedBucket)
                (ApplyResourceChange_ sampleProvider []
                   (destroyRequestFor "aws_s3_bucket" forcedBucket))])
  ∧ ∃ req,
      applyRequests
        (DeleteResource {| provider := sampleProvider |} "aws_s3_bucket"
           "my-bucket" guardedBucketRead false []).2
      = [req]
      ∧ PriorState req = guardedBucket.
Proof.
  pose proof enableForceDestroyAttributes_guardedBucket as Hpatch.
  destruct (C2_apply_request_of_each_revision
              {| provider := sampleProvider |} "aws_s3_bucket" "my-bucket"
              guardedBucketRead guardedBucket forcedBucket [] Hpatch)
    as (Hdestroy & _ & _ & _ & _ & req & Hdelete & _ & Hprior & _).
  split; [exact Hpatch|]. split; [exact Hdestroy|].
  exists req. rewrite Hdelete. split; [|exact Hprior].
  simpl. by destruct (tfdiags.HasErrors _).
Defined.

(** ** Values that cannot iterate elements *)

(** Claim C9, refuted as stated: the null of an object type is a null value
    for which the patch function fails instead of returning an empty
    object. *)
Lemma C9_null_object_panics :
  cty.IsNull goneBucket = true
  ∧ enableForceDestroyAttributes goneBucket = None.
Proof.
  split; [done|].
  unfold enableForceDestroyAttributes, goneBucket, cty.AsValueMap. simpl.
  by rewrite map_size_singleton.
Qed.

(** Claim C9, amended: [CanIterateElements] is false exactly for the values
    whose type is not a list, map, set, tuple or object type, so for every
    primitive value and every null or unknown of a primitive or the dynamic
    type; and for every value on which it is false the patch function
    returns the empty object, never the input and never a failure. *)
Theorem C9_not_iterable_gives_empty_object (state : cty.Value) :
  (cty.CanIterateElements state = false
   ↔ (∀ elem, cty.Type_ state ≠ cty.List elem)
     ∧ (∀ elem, cty.Type_ state ≠ cty.Map elem)
     ∧ (∀ elem, cty.Type_ state ≠ cty.Set_ elem)
     ∧ (∀ elems, cty.Type_ state ≠ cty.Tuple elems)
     ∧ (∀ attrs, cty.Type_ state ≠ cty.Object attrs))
  ∧ (cty.CanIterateElements state = false →
     enableForceDestroyAttributes state = Some cty.EmptyObjectVal).
Proof.
  split.
  - unfold cty.CanIterateElements. split.
    + intros Hno. destruct (cty.Type_ state); try discriminate;
        repeat split; done.
    + intros (Hlist & Hmap & Hset & Htuple & Hobject).
      destruct (cty.Type_ state) as [| | | |elem|elem|elem|elems|attrs];
        try done.
      * by destruct (Hlist elem).
      * by destruct (Hmap elem).
      * by destruct (Hset elem).
      * by destruct (Htuple elems).
      * by destruct (Hobject attrs).
  - intros Hno. unfold enableForceDestroyAttributes. by rewrite Hno.
Qed.

Lemma C9_not_iterable_gives_empty_object_witness :
  cty.CanIterateElements (cty.NullVal cty.DynamicPseudoType) = false
  ∧ enableForceDestroyAttributes (cty.NullVal cty.DynamicPseudoType)
    = Some cty.EmptyObjectVal.
Proof.
  split; [reflexivity|].
  apply (C9_not_iterable_gives_empty_object
           (cty.NullVal cty.DynamicPseudoType)).
  reflexivity.
Defined.

(** A set of strings passes the guard and is not turned into the empty
    object: its elements come back as the attributes of an object, each
    under its own text. *)
Lemma enableForceDestroyAttributes_set_of_strings :
  cty.CanIterateElements (cty.SetVal cty.String [cty.StringVal "a"]) = true
  ∧ enableForceDestroyAttributes (cty.SetVal cty.String [cty.StringVal "a"])
    = Some (cty.ObjectVal {["a" := cty.StringVal "a"]}).
Proof.
  split; [reflexivity|].
  unfold enableForceDestroyAttributes, cty.AsValueMap. simpl.
  apply (f_equal (λ m, Some (cty.ObjectVal m))).
  apply map_eq. intros k. rewrite patch_lookup.
  rewrite insert_empty.
  destruct (decide (k = "a")) as [->|Hne].
  - by rewrite !lookup_singleton_eq.
  - by rewrite !lookup_singleton_ne.
Qed.

(** ** The loops of the orchestrator *)

Ltac run_step :=
  unfold bind, call, ret, emit, leave; simpl.

(** [DeleteResource] adds events of the loop only, calls no import, and
    prints one line exactly when it returns true. *)
Lemma DeleteResource_spec p resType resID readResp dry tr :
  ∃ (deleted : bool) added,
    DeleteResource p resType resID readResp dry tr = (inl deleted, tr ++ added)
    ∧ Forall (fromLoop (pid (provider p))) added
    ∧ importRequests added = []
    ∧ length (succeededDestroys added) = (if deleted then 1 else 0).
Proof.
  unfold DeleteResource, applyResourceChange. destruct dry; run_step.
  - eexists true, [_]. split; [done|]. repeat split; [|done..].
    by repeat constructor.
  - destruct (tfdiags.HasErrors _); run_step.
    + eexists false, [_; _]. rewrite <- app_assoc. split; [done|].
      repeat split; [|done..]. by repeat constructor.
    + eexists true, [_; _]. rewrite <- app_assoc. split; [done|].
      repeat split; [|done..]. by repeat constructor.
Qed.

Lemma succeededDestroys_app tr1 tr2 :
  succeededDestroys (tr1 ++ tr2) = succeededDestroys tr1 ++ succeededDestroys tr2.
Proof. apply omap_app. Qed.

Lemma importRequests_app tr1 tr2 :
  importRequests (tr1 ++ tr2) = importRequests tr1 ++ importRequests tr2.
Proof. apply omap_app. Qed.

(** One imported resource: the count grows by the destroys that
    succeeded. *)
Lemma forImportedResource_spec env p resType resID resImp count tr :
  ∃ count' added,
    forImportedResource env p resType resID resImp count tr
    = (inl count', tr ++ added)
    ∧ Forall (fromLoop (pid (provider p))) added
    ∧ importRequests added = []
    ∧ count' = count + length (succeededDestroys added).
Proof.
  unfold forImportedResource, ReadResource. run_step.
  set (readResp := ReadResource_ _ _ _).
  set (readEvent := CallReadResource _ _ _).
  destruct (tfdiags.HasErrors _).
  { eexists count, [_; _]. rewrite <- app_assoc. split; [done|].
    split; [by repeat constructor|]. split; [done|]. simpl. lia. }
  destruct (cty.IsNull _).
  { eexists count, [_; _]. rewrite <- app_assoc. split; [done|].
    split; [by repeat constructor|]. split; [done|]. simpl. lia. }
  destruct (DeleteResource_spec p resType resID readResp (dryRun env)
              (tr ++ [readEvent]))
    as (deleted & added & -> & Hloop & Himports & Hcount).
  exists (if deleted then S count else count), (readEvent :: added).
  split; [destruct deleted; by rewrite <- app_assoc|].
  split; [constructor; [done|assumption]|].
  split; [done|]. simpl. rewrite Hcount. destruct deleted; lia.
Qed.

Lemma rangeImportedResources_spec env p resType resID imported count tr :
  ∃ count' added,
    rangeImportedResources env p resType resID imported count tr
    = (inl count', tr ++ added)
    ∧ Forall (fromLoop (pid (provider p))) added
    ∧ importRequests added = []
    ∧ count' = count + length (succeededDestroys added).
Proof.
  revert count tr. induction imported as [|resImp rest IH]; intros count tr.
  - exists count, []. simpl. unfold ret. rewrite app_nil_r.
    repeat split; [constructor|lia].
  - simpl. unfold bind.
    destruct (forImportedResource_spec env p resType resID resImp count tr)
      as (count1 & added1 & -> & Hloop1 & Himports1 & ->).
    destruct (IH (count + length (succeededDestroys added1)) (tr ++ added1))
      as (count2 & added2 & -> & Hloop2 & Himports2 & ->).
    eexists _, (added1 ++ added2). rewrite app_assoc. split; [done|].
    split; [by apply Forall_app|].
    rewrite importRequests_app, succeededDestroys_app, length_app,
      Himports1, Himports2.
    split; [done|lia].
Qed.

(** One resource instance. Whatever the provider answers, an instance whose
    ID decodes is attempted and the loop goes on; an instance whose ID does
    not decode ends the run with status 1 before any call. *)
Lemma forResourceInstance_spec env p state resAddr count tr :
  ∃ added,
    (forResourceInstance env p state resAddr count tr).2 = tr ++ added
    ∧ Forall (fromLoop (pid (provider p))) added
    ∧ (decodes state resAddr →
       (forResourceInstance env p state resAddr count tr).1
       = inl (count + length (succeededDestroys added))
       ∧ importRequests added = attempt state resAddr)
    ∧ (¬ decodes state resAddr →
       (forResourceInstance env p state resAddr count tr).1 = inr 1%Z).
Proof.
  unfold forResourceInstance, decodes, attempt, currentAt, modeOf, typeOf.
  destruct (states.current _) as [current|].
  2:{ exists []. unfold ret. simpl. rewrite app_nil_r.
      split; [done|]. split; [constructor|]. split.
      - intros _. split; [f_equal; lia|done].
      - intros Hno. exfalso. apply Hno. intros ? [=]. }
  destruct (getResourceID current) as [resID [err|]] eqn:HID.
  { run_step. exists [Log (FailedToGetID resAddr)].
    split; [done|]. split; [by repeat constructor|]. split.
    - intros Hdec. specialize (Hdec current eq_refl).
      rewrite HID in Hdec. discriminate.
    - done. }
  destruct (decide (addrs.Mode (addrs.inst_Resource (addrs.abs_Resource resAddr))
                    = addrs.ManagedResourceMode)) as [Hmode|Hmode].
  2:{ rewrite (bool_decide_eq_true_2 _ Hmode), (bool_decide_eq_false_2 _ Hmode).
      run_step. eexists [_]. split; [done|].
      split; [by repeat constructor|]. split.
      - intros _. split; [f_equal; simpl; lia|done].
      - intros Hno. exfalso. apply Hno. intros ? [= <-]. by rewrite HID. }
  rewrite (bool_decide_eq_true_2 _ Hmode).
  rewrite bool_decide_eq_false_2 by (intros Hne; by apply Hne).
  unfold ImportResource. run_step.
  set (importResp := ImportResourceState_ _ _ _).
  set (importEvent := CallImportResourceState _ _ _).
  destruct (tfdiags.HasErrors _).
  { eexists [_; _]. rewrite <- app_assoc. split; [done|].
    split; [by repeat constructor|]. split.
    - intros _. subst importEvent. simpl. split; [f_equal; lia|done].
    - intros Hno. exfalso. apply Hno. intros ? [= <-]. by rewrite HID. }
  destruct (rangeImportedResources_spec env p
              (addrs.Type_ (addrs.inst_Resource (addrs.abs_Resource resAddr)))
              resID (ImportedResources importResp) count
              (tr ++ [importEvent]))
    as (count' & added & -> & Hloop & Himports & ->).
  exists (importEvent :: added). simpl. rewrite <- app_assoc.
  split; [done|]. split; [constructor; [done|assumption]|]. split.
  - intros _. split; [done|].
    unfold importRequests in *. simpl. by rewrite Himports.
  - intros Hno. exfalso. apply Hno. intros ? [= <-]. by rewrite HID.
Qed.

Lemma decodes_dec state resAddr :
  decodes state resAddr ∨ ¬ decodes state resAddr.
Proof.
  unfold decodes. destruct (currentAt state resAddr) as [current|].
  - destruct (getResourceID current).2 eqn:Herr.
    + right. intros Hdec. specialize (Hdec current eq_refl). congruence.
    + left. by intros ? [= <-].
  - left. intros ? [=].
Qed.

(** The loop over the resource instances: it stops early only at an
    instance whose ID does not decode. *)
Lemma rangeResourceInstances_spec env p state resInstances count tr :
  ∃ added,
    (rangeResourceInstances env p state resInstances count tr).2 = tr ++ added
    ∧ Forall (fromLoop (pid (provider p))) added
    ∧ (Forall (decodes state) resInstances →
       (rangeResourceInstances env p state resInstances count tr).1
       = inl (count + length (succeededDestroys added))
       ∧ importRequests added = flat_map (attempt state) resInstances)
    ∧ (Exists (λ resAddr, ¬ decodes state resAddr) resInstances →
       (rangeResourceInstances env p state resInstances count tr).1
       = inr 1%Z).
Proof.
  revert count tr.
  induction resInstances as [|resAddr rest IH]; intros count tr.
  - exists []. simpl. unfold ret. simpl. rewrite app_nil_r.
    split; [done|]. split; [constructor|]. split.
    + intros _. split; [f_equal; lia|done].
    + intros Hex. inversion Hex.
  - simpl. unfold bind.
    destruct (forResourceInstance_spec env p state resAddr count tr)
      as (added1 & Htrace1 & Hloop1 & Hok1 & Hfail1).
    destruct (forResourceInstance env p state resAddr count tr)
      as [result1 tr1] eqn:Hrun1.
    simpl in Htrace1, Hok1, Hfail1. subst tr1.
    destruct (decodes_dec state resAddr) as [Hdec|Hdec].
    + destruct (Hok1 Hdec) as [-> Himports1].
      destruct (IH (count + length (succeededDestroys added1)) (tr ++ added1))
        as (added2 & Htrace2 & Hloop2 & Hok2 & Hfail2).
      exists (added1 ++ added2). rewrite app_assoc.
      split; [done|]. split; [by apply Forall_app|]. split.
      * intros Hall. apply Forall_cons_1 in Hall as [_ Hall].
        destruct (Hok2 Hall) as [-> Himports2].
        rewrite succeededDestroys_app, importRequests_app, length_app,
          Himports1, Himports2.
        split; [f_equal; lia|done].
      * intros Hex. apply Exists_cons in Hex as [Hex|Hex]; [done|].
        by apply Hfail2.
    + rewrite (Hfail1 Hdec). exists added1. simpl.
      split; [done|]. split; [done|]. split.
      * intros Hall. apply Forall_cons_1 in Hall as [Hall _]. done.
      * done.
Qed.

(** ** The whole run *)

Lemma main_trace env : (main env).2 = (mainExitCode env []).2.
Proof. unfold main. by destruct (mainExitCode env []) as [[code|code] tr]. Qed.

Lemma main_status env :
  (main env).1 = match (mainExitCode env []).1 with
                 | inl code | inr code => code
                 end.
Proof. unfold main. by destruct (mainExitCode env []) as [[code|code] tr]. Qed.

(** A start that goes well leads to the loop, the total and status 0. *)
Lemma mainExitCode_reachesLoop env metaPlugin prov state resInstances :
  reachesLoop env metaPlugin prov state resInstances →
  mainExitCode env []
  = (let* deletedResourcesCount :=
       rangeResourceInstances env {| provider := prov |} state resInstances 0 in
     emit (Log (TotalDeleted deletedResourcesCount)) ;;;
     ret 0%Z) (startTrace env metaPlugin prov).
Proof.
  intros (Hinst & Hlaunch & Hconf & (content & Hfile & Hread)
          & (diagnostics & Hlookup & Hdiag)).
  unfold launched in Hlaunch. rewrite Hinst in Hlaunch.
  unfold installed in Hinst.
  unfold mainExitCode, InstallProvider, newTerraformProvider, configure,
    getState.
  run_step.
  destruct (InstallProvider_ env "aws" "2.43.0") as [[meta diags] err].
  destruct (tfdiags.HasErrors diags); [done|].
  destruct (bool_decide (err ≠ None)); [done|].
  injection Hinst as ->. simpl.
  fold (launchLevel env). fold (pluginMeta (Path metaPlugin)).
  rewrite Hlaunch. simpl. fold (configuration env).
  rewrite Hconf. simpl. rewrite Hfile, Hread. simpl.
  rewrite Hlookup, Hdiag. done.
Qed.

Example sample_dry_run :
  main (sampleEnv true oneStateFile threeResources)
  = (0%Z,
     startTrace (sampleEnv true oneStateFile threeResources) sampleMeta
       sampleProvider
     ++ [ CallImportResourceState 4711
            {| import_TypeName := "aws_s3_bucket"; import_ID := "logs-bucket" |}
            (ImportResourceState_ sampleProvider []
               {| import_TypeName := "aws_s3_bucket";
                  import_ID := "logs-bucket" |});
          CallReadResource 4711
            {| read_TypeName := "aws_s3_bucket";
               read_PriorState :=
                 cty.ObjectVal {["id" := cty.StringVal "logs-bucket"]};
               read_Private := "" |}
            {| read_NewState :=
                 cty.ObjectVal {["id" := cty.StringVal "logs-bucket"]};
               read_Diagnostics := []; read_NewPrivate := "" |};
          Stdout (WouldTryToDelete "aws_s3_bucket" "logs-bucket");
          CallImportResourceState 4711
            {| import_TypeName := "aws_iam_role"; import_ID := "ci-role" |}
            {| ImportedResources := []; import_Diagnostics := anError |};
          Log (SkipImportFailed "aws_iam_role" "ci-role");
          CallImportResourceState 4711
            {| import_TypeName := "aws_s3_bucket"; import_ID := "assets-bucket" |}
            (ImportResourceState_ sampleProvider []
               {| import_TypeName := "aws_s3_bucket";
                  import_ID := "assets-bucket" |});
          CallReadResource 4711
            {| read_TypeName := "aws_s3_bucket";
               read_PriorState :=
                 cty.ObjectVal {["id" := cty.StringVal "assets-bucket"]};
               read_Private := "" |}
            {| read_NewState :=
                 cty.ObjectVal {["id" := cty.StringVal "assets-bucket"]};
               read_Diagnostics := []; read_NewPrivate := "" |};
          Stdout (WouldTryToDelete "aws_s3_bucket" "assets-bucket");
          Log (TotalDeleted 2) ]).
Proof. vm_compute. reflexivity. Qed.

Lemma startTrace_quiet env metaPlugin prov :
  importRequests (startTrace env metaPlugin prov) = []
  ∧ succeededDestroys (startTrace env metaPlugin prov) = [].
Proof. done. Qed.

Ltac current_instance :=
  let cur := fresh "current" in
  let H := fresh "Hcurrent" in
  intros cur H; vm_compute in H; injection H as <-; reflexivity.

Lemma threeResources_reachesLoop dry :
  reachesLoop (sampleEnv dry oneStateFile threeResources) sampleMeta
    sampleProvider threeResources (fst <$> states.instances threeResources).
Proof.
  split; [reflexivity|]. split; [reflexivity|]. split; [reflexivity|].
  split; [by exists "{ }"|]. by exists [].
Defined.


(** ** The mode filter and the resource ID *)

(** Claim C4, refuted as stated: a data source whose attributes do not
    decode is not skipped; the run ends with status 1 at it. *)
Lemma C4_broken_data_source_is_fatal :
  modeOf (dataSource "aws_ami" "ubuntu") ≠ addrs.ManagedResourceMode
  ∧ (main (sampleEnv false oneStateFile brokenDataSource)).1 = 1%Z
  ∧ last (main (sampleEnv false oneStateFile brokenDataSource)).2
    = Some (Log (FailedToGetID (dataSource "aws_ami" "ubuntu"))).
Proof. split; [done|]. split; vm_compute; reflexivity. Qed.

(** Claim C4, amended: for an instance with a current object whose mode is
    not the managed mode, the orchestrator decodes the resource ID first; if
    that fails the run ends with status 1, and otherwise the instance is
    skipped with one log line, before any call to the provider and with the
    count unchanged. *)
Theorem C4_decode_then_mode_filter env p state resAddr current count tr :
  currentAt state resAddr = Some current →
  modeOf resAddr ≠ addrs.ManagedResourceMode →
  forResourceInstance env p state resAddr count tr
  = match (getResourceID current).2 with
    | Some _ => (inr 1%Z, tr ++ [Log (FailedToGetID resAddr)])
    | None =>
        (inl count,
         tr ++ [Log (SkipNotManaged (typeOf resAddr) (getResourceID current).1)])
    end.
Proof.
  unfold currentAt, modeOf, typeOf, forResourceInstance.
  intros -> Hmode.
  destruct (getResourceID current) as [resID [err|]]; [done|].
  by rewrite bool_decide_eq_true_2.
Qed.

Lemma C4_decode_then_mode_filter_witness :
  currentAt brokenDataSource (dataSource "aws_ami" "ubuntu")
  = Some {| states.AttrsJSON := json.Invalid "{"; states.Private := "" |}
  ∧ modeOf (dataSource "aws_ami" "ubuntu") ≠ addrs.ManagedResourceMode
  ∧ forResourceInstance (sampleEnv false oneStateFile brokenDataSource)
      {| provider := sampleProvider |} brokenDataSource
      (dataSource "aws_ami" "ubuntu") 0 []
    = (inr 1%Z, [Log (FailedToGetID (dataSource "aws_ami" "ubuntu"))]).
Proof.
  split; [reflexivity|]. split; [discriminate|].
  apply (C4_decode_then_mode_filter
           (sampleEnv false oneStateFile brokenDataSource)
           {| provider := sampleProvider |} brokenDataSource
           (dataSource "aws_ami" "ubuntu")
           {| states.AttrsJSON := json.Invalid "{"; states.Private := "" |}
           0 []).
  - reflexivity.
  - discriminate.
Defined.

Lemma decode_ID_error v result saved :
  (decode_ID v result saved).2 ≠ None
  ↔ saved ≠ None ∨ refused_ID v = true.
Proof.
  destruct v; simpl; try (destruct saved; simpl); intuition congruence.
Qed.

Lemma decode_members_error members result saved :
  (decode_members members result saved).2 ≠ None
  ↔ saved ≠ None
    ∨ Exists (λ member, selects_id member.1 = true
                        ∧ refused_ID member.2 = true) members.
Proof.
  revert result saved.
  induction members as [|[key v] rest IH]; intros result saved; simpl.
  - rewrite Exists_nil. intuition.
  - rewrite Exists_cons. simpl. destruct (selects_id key) eqn:Hkey.
    + pose proof (decode_ID_error v result saved) as Hsaved.
      destruct (decode_ID v result saved) as [result' saved'].
      simpl in Hsaved. rewrite IH, Hsaved. intuition.
    + rewrite IH. intuition congruence.
Qed.

Lemma decode_members_no_id members result saved :
  Forall (λ member, selects_id member.1 = false) members →
  decode_members members result saved = (result, saved).
Proof.
  induction 1 as [|[key v] rest Hkey _ IH]; simpl; [done|].
  simpl in Hkey. by rewrite Hkey.
Qed.

(** [getResourceID] fails exactly on the payloads [json.Unmarshal]
    refuses. *)
Lemma getResourceID_error current :
  (getResourceID current).2 ≠ None ↔ undecodable (states.AttrsJSON current).
Proof.
  unfold getResourceID, Unmarshal, undecodable.
  destruct (states.AttrsJSON current) as [raw|doc]; [done|].
  destruct doc as [| | | | |members]; simpl; try (intuition congruence).
  pose proof (decode_members_error members {| ID := "" |} None) as Herr.
  destruct (decode_members members {| ID := "" |} None) as [result [e|]];
    simpl in *; intuition congruence.
Qed.

(** A payload without a member for [id] gives the empty ID and no error. *)
Lemma getResourceID_lacks_id current :
  lacks_id (states.AttrsJSON current) → getResourceID current = ("", None).
Proof.
  intros (members & Hdata & Hnone). unfold getResourceID, Unmarshal.
  rewrite Hdata. by rewrite decode_members_no_id.
Qed.

(** Claim C5, refuted as stated: the attributes of this instance decode and
    have no [id] member, and [getResourceID] returns the empty ID without an
    error. *)
Lemma C5_missing_id_is_no_error :
  lacks_id (states.AttrsJSON noID) ∧ getResourceID noID = ("", None).
Proof.
  split; [|reflexivity].
  eexists. split; [reflexivity|]. by repeat constructor.
Qed.

(** Claim C5, amended: extracting the resource ID returns an error exactly
    when the payload fails to decode (bytes that are not JSON, a document
    that is neither an object nor null, an [id] that is neither a string nor
    null); a decoded payload without an [id] member gives the empty ID and
    no error, and a managed instance with such a payload is processed with
    the empty ID: the loop body sends the import request for its type and
    the ID [""] and does not end the run; and a run that reaches an
    instance whose payload fails to decode ends with status 1. *)
Theorem C5_decode_failure_is_fatal
    env metaPlugin prov state resInstances resAddr current :
  reachesLoop env metaPlugin prov state resInstances →
  resAddr ∈ resInstances →
  currentAt state resAddr = Some current →
  ((getResourceID current).2 ≠ None ↔ undecodable (states.AttrsJSON current))
  ∧ (lacks_id (states.AttrsJSON current) → getResourceID current = ("", None))
  ∧ (lacks_id (states.AttrsJSON current) →
     modeOf resAddr = addrs.ManagedResourceMode →
     ∀ p count tr,
       ∃ count' rest,
         forResourceInstance env p state resAddr count tr
         = (inl count',
            tr ++ CallImportResourceState (pid (provider p))
                    {| import_TypeName := typeOf resAddr; import_ID := "" |}
                    (ImportResourceState_ (provider p) tr
                       {| import_TypeName := typeOf resAddr;
                          import_ID := "" |})
                  :: rest))
  ∧ (undecodable (states.AttrsJSON current) → (main env).1 = 1%Z).
Proof.
  intros Hstart Hin Hcurrent.
  split; [apply getResourceID_error|].
  split; [apply getResourceID_lacks_id|].
  split.
  { intros Hlacks Hmode p count tr.
    apply getResourceID_lacks_id in Hlacks.
    unfold forResourceInstance, currentAt, modeOf, typeOf in *.
    rewrite Hcurrent, Hlacks.
    rewrite bool_decide_eq_false_2 by (intros Hne; by apply Hne).
    unfold ImportResource. run_step.
    set (importResp := ImportResourceState_ _ _ _).
    destruct (tfdiags.HasErrors _).
    - eexists _, [_]. by rewrite <- app_assoc.
    - destruct (rangeImportedResources_spec env p
                  (addrs.Type_
                     (addrs.inst_Resource (addrs.abs_Resource resAddr)))
                  "" (ImportedResources importResp) count
                  (tr ++ [CallImportResourceState (pid (provider p))
                            {| import_TypeName :=
                                 addrs.Type_
                                   (addrs.inst_Resource
                                      (addrs.abs_Resource resAddr));
                               import_ID := "" |} importResp]))
        as (count' & added & -> & _).
      exists count', added. by rewrite <- app_assoc. }
  intros Hbad. apply getResourceID_error in Hbad.
  rewrite main_status, (mainExitCode_reachesLoop _ _ _ _ _ Hstart).
  unfold bind at 1.
  destruct (rangeResourceInstances_spec env {| provider := prov |} state
              resInstances 0 (startTrace env metaPlugin prov))
    as (added & _ & _ & _ & Hfail).
  destruct (rangeResourceInstances _ _ _ _ _ _) as [result tr1].
  simpl in Hfail. rewrite Hfail; [done|].
  apply Exists_exists. exists resAddr. split; [done|].
  intros Hdec. by apply Hbad, Hdec.
Qed.

Lemma C5_decode_failure_is_fatal_witness :
  (undecodable (states.AttrsJSON numericIDObject)
   ∧ (getResourceID numericIDObject).2 ≠ None
   ∧ (main (sampleEnv false oneStateFile numericID)).1 = 1%Z)
  ∧ (lacks_id (states.AttrsJSON noID)
     ∧ getResourceID noID = ("", None)
     ∧ ∃ count' rest,
         forResourceInstance (sampleEnv false oneStateFile withoutID)
           {| provider := sampleProvider |} withoutID
           (managed "aws_s3_bucket" "logs") 0 []
         = (inl count',
            [] ++ CallImportResourceState 4711
                    {| import_TypeName := "aws_s3_bucket"; import_ID := "" |}
                    (ImportResourceState_ sampleProvider []
                       {| import_TypeName := "aws_s3_bucket";
                          import_ID := "" |})
                  :: rest)).
Proof.
  split.
  - assert (Hbad : undecodable (states.AttrsJSON numericIDObject)).
    { simpl. constructor. by split. }
    destruct (C5_decode_failure_is_fatal
                (sampleEnv false oneStateFile numericID) sampleMeta
                sampleProvider numericID [managed "aws_s3_bucket" "logs"]
                (managed "aws_s3_bucket" "logs") numericIDObject)
      as (Herror & _ & _ & Hfatal).
    + split; [reflexivity|]. split; [reflexivity|]. split; [reflexivity|].
      split; [by exists "{ }"|]. by exists [].
    + apply list_elem_of_here.
    + reflexivity.
    + split; [exact Hbad|]. split; [by apply Herror|by apply Hfatal].
  - assert (Hlacks : lacks_id (states.AttrsJSON noID)).
    { eexists. split; [reflexivity|]. by repeat constructor. }
    destruct (C5_decode_failure_is_fatal
                (sampleEnv false oneStateFile withoutID) sampleMeta
                sampleProvider withoutID [managed "aws_s3_bucket" "logs"]
                (managed "aws_s3_bucket" "logs") noID)
      as (_ & Hempty & Hprocessed & _).
    + split; [reflexivity|]. split; [reflexivity|]. split; [reflexivity|].
      split; [by exists "{ }"|]. by exists [].
    + apply list_elem_of_here.
    + reflexivity.
    + split; [exact Hlacks|]. split; [by apply Hempty|].
      exact (Hprocessed Hlacks eq_refl {| provider := sampleProvider |} 0 []).
Defined.

(** ** Dry runs and resources that are gone *)

(** Claim C6. With the dry-run flag set [DeleteResource] returns true for
    every resource type, ID and read response, and all it does is print its
    line: no request reaches the provider. In a dry run the loop over the
    imported resources therefore counts every resource that was read
    without error and is not gone. *)
Theorem C6_dry_run_deletes_nothing_and_counts
    env p resType resID resImp count tr :
  dryRun env = true →
  tfdiags.HasErrors
    (read_Diagnostics (ReadResource_ (provider p) tr (readRequestFor resImp)))
  = false →
  cty.IsNull
    (read_NewState (ReadResource_ (provider p) tr (readRequestFor resImp)))
  = false →
  (∀ resType' resID' readResp tr',
     DeleteResource p resType' resID' readResp true tr'
     = (inl true, tr' ++ [Stdout (WouldTryToDelete resType' resID')]))
  ∧ forImportedResource env p resType resID resImp count tr
    = (inl (S count),
       tr ++ [CallReadResource (pid (provider p)) (readRequestFor resImp)
                (ReadResource_ (provider p) tr (readRequestFor resImp));
              Stdout (WouldTryToDelete resType resID)]).
Proof.
  intros Hdry Hread Hexists. split; [done|].
  unfold forImportedResource, ReadResource. run_step.
  fold (readRequestFor resImp). rewrite Hread, Hexists, Hdry.
  unfold DeleteResource. run_step. by rewrite <- app_assoc.
Qed.

Lemma C6_dry_run_deletes_nothing_and_counts_witness :
  dryRun (sampleEnv true oneStateFile threeResources) = true
  ∧ (∀ resType' resID' readResp tr',
       DeleteResource {| provider := sampleProvider |} resType' resID'
         readResp true tr'
       = (inl true, tr' ++ [Stdout (WouldTryToDelete resType' resID')]))
  ∧ forImportedResource (sampleEnv true oneStateFile threeResources)
      {| provider := sampleProvider |} "aws_s3_bucket" "logs-bucket"
      importedBucket 0 []
    = (inl 1,
       [] ++ [CallReadResource 4711 (readRequestFor importedBucket)
                (ReadResource_ sampleProvider [] (readRequestFor importedBucket));
              Stdout (WouldTryToDelete "aws_s3_bucket" "logs-bucket")]).
Proof.
  split; [reflexivity|].
  apply (C6_dry_run_deletes_nothing_and_counts
           (sampleEnv true oneStateFile threeResources)
           {| provider := sampleProvider |} "aws_s3_bucket" "logs-bucket"
           importedBucket 0 []); reflexivity.
Defined.

(** Claim C7. When the new state of the read response is null, the
    iteration for that imported resource is over after the read and one log
    line: [DeleteResource] is not called, so no apply request is sent and
    nothing is printed, and the count is what it was. *)
Theorem C7_gone_resource_is_not_destroyed
    env p resType resID resImp count tr :
  cty.IsNull
    (read_NewState (ReadResource_ (provider p) tr (readRequestFor resImp)))
  = true →
  ∃ line tr',
    forImportedResource env p resType resID resImp count tr = (inl count, tr')
    ∧ tr' = tr ++ [CallReadResource (pid (provider p)) (readRequestFor resImp)
                     (ReadResource_ (provider p) tr (readRequestFor resImp));
                   Log line]
    ∧ applyRequests tr' = applyRequests tr
    ∧ succeededDestroys tr' = succeededDestroys tr.
Proof.
  intros Hgone.
  unfold forImportedResource, ReadResource. run_step.
  fold (readRequestFor resImp). rewrite Hgone.
  destruct (tfdiags.HasErrors _); run_step; rewrite <- app_assoc;
    eexists _, _; (split; [reflexivity|]); (split; [reflexivity|]);
    unfold applyRequests, succeededDestroys; rewrite !omap_app; simpl;
    by rewrite !app_nil_r.
Qed.

Lemma C7_gone_resource_is_not_destroyed_witness :
  cty.IsNull
    (read_NewState
       (ReadResource_ providerOfGoneResources [] (readRequestFor importedBucket)))
  = true
  ∧ ∃ line tr',
      forImportedResource (sampleEnv false oneStateFile threeResources)
        {| provider := providerOfGoneResources |} "aws_s3_bucket"
        "logs-bucket" importedBucket 0 []
      = (inl 0, tr')
      ∧ tr' = [] ++ [CallReadResource 4712 (readRequestFor importedBucket)
                       (ReadResource_ providerOfGoneResources []
                          (readRequestFor importedBucket));
                     Log line]
      ∧ applyRequests tr' = applyRequests []
      ∧ succeededDestroys tr' = succeededDestroys [].
Proof.
  split; [reflexivity|].
  apply (C7_gone_resource_is_not_destroyed
           (sampleEnv false oneStateFile threeResources)
           {| provider := providerOfGoneResources |} "aws_s3_bucket"
           "logs-bucket" importedBucket 0 []).
  reflexivity.
Defined.

(** ** The start of the run *)

(** [mainExitCode], step by step: what it returns and what it has done at
    each point where it can stop before the loop, and the loop otherwise. *)
Lemma mainExitCode_cases env :
  match installed env with
  | None =>
      mainExitCode env []
      = (inl 1%Z, [Install "aws" "2.43.0"; Log (FailedToInstall "aws")])
  | Some metaPlugin =>
      let upToLaunch :=
        [Install "aws" "2.43.0"; Launch (Path metaPlugin) (launchLevel env)] in
      match launched env with
      | None =>
          mainExitCode env []
          = (inl 1%Z, upToLaunch ++ [Log (FailedToLoad (Path metaPlugin))])
      | Some prov =>
          let respConf := Configure_ prov upToLaunch (configuration env) in
          let upToConfigure :=
            upToLaunch ++ [CallConfigure (pid prov) (configuration env) respConf] in
          if tfdiags.HasErrors (conf_Diagnostics respConf) then
            mainExitCode env []
            = (inr 1%Z, upToConfigure ++ [Log FailedToConfigure])
          else
            match stateRead env with
            | None =>
                mainExitCode env []
                = (inl 1%Z,
                   upToConfigure
                   ++ [ReadStateFile (pathToState env); Log FailedToGetState])
            | Some state =>
                if tfdiags.HasErrors (lookupAllResourceInstanceAddrs env state).2
                then
                  mainExitCode env []
                  = (inl 1%Z,
                     startTrace env metaPlugin prov ++ [Log FailedToLookup])
                else
                  mainExitCode env []
                  = (let* deletedResourcesCount :=
                       rangeResourceInstances env {| provider := prov |} state
                         (lookupAllResourceInstanceAddrs env state).1 0 in
                     emit (Log (TotalDeleted deletedResourcesCount)) ;;;
                     ret 0%Z) (startTrace env metaPlugin prov)
            end
      end
  end.
Proof.
  unfold launched, installed, stateRead.
  unfold mainExitCode, InstallProvider, newTerraformProvider, configure,
    getState.
  run_step.
  destruct (InstallProvider_ env "aws" "2.43.0") as [[meta diags] err].
  destruct (tfdiags.HasErrors diags); [done|].
  destruct (bool_decide (err ≠ None)); [done|]. simpl.
  fold (launchLevel env). fold (pluginMeta (Path meta)).
  destruct (providerFactory_ env _ _) as [prov|]; [|done]. simpl.
  fold (configuration env).
  destruct (tfdiags.HasErrors (conf_Diagnostics _)); [done|]. simpl.
  destruct (files env !! pathToState env) as [content|]; [|done]. simpl.
  destruct (readStateFile env content) as [state|]; [|done]. simpl.
  destruct (lookupAllResourceInstanceAddrs env state) as [resInstances diagnostics].
  simpl. by destruct (tfdiags.HasErrors diagnostics).
Qed.

(** The loops neither install nor launch nor configure anything, and they
    call no other process than the one they were given. *)
Lemma fromLoop_quiet q added :
  Forall (fromLoop q) added →
  installations added = []
  ∧ launches added = []
  ∧ configureRequests added = []
  ∧ Forall (λ q', q' = q) (calledProcesses added).
Proof.
  induction 1 as [|e added He _ (IHi & IHl & IHc & IHp)]; [done|].
  unfold installations, launches, configureRequests, calledProcesses in *.
  destruct e; simpl in *; try done; rewrite ?IHi, ?IHl, ?IHc;
    repeat split; try done; by constructor.
Qed.

(** Claim C8, refuted as stated: the state file is missing, the run ends
    with status 1, and by then the provider has been installed and
    launched. *)
Lemma C8_provider_is_launched_before_state_is_read :
  files noStateFileEnv !! pathToState noStateFileEnv = None
  ∧ (main noStateFileEnv).1 = 1%Z
  ∧ installations (main noStateFileEnv).2 = [("aws", "2.43.0")]
  ∧ launches (main noStateFileEnv).2 = [Path sampleMeta].
Proof. repeat split; vm_compute; reflexivity. Qed.

(** Claim C8, amended: if the state file does not exist, the run ends with
    status 1 and no resource is imported, read or destroyed. The provider
    "aws" is installed first; it is launched if the installation succeeded,
    and configured if the launch succeeded; the state file is looked for
    only after that, as the next thing after a configuration without error,
    and the run ends there. If one of the three steps fails, the run ends
    without looking for the state file. *)
Theorem C8_missing_state_file env :
  files env !! pathToState env = None →
  (main env).1 = 1%Z
  ∧ (main env).2
    = match installed env with
      | None => [Install "aws" "2.43.0"; Log (FailedToInstall "aws")]
      | Some metaPlugin =>
          upToLaunch env metaPlugin
          ++ match launched env with
             | None => [Log (FailedToLoad (Path metaPlugin))]
             | Some prov =>
                 configureCall env metaPlugin prov
                 :: (if tfdiags.HasErrors
                          (conf_Diagnostics (configureAnswer env metaPlugin prov))
                     then [Log FailedToConfigure]
                     else [ReadStateFile (pathToState env);
                           Log FailedToGetState])
             end
      end
  ∧ importRequests (main env).2 = []
  ∧ readRequests (main env).2 = []
  ∧ applyRequests (main env).2 = [].
Proof.
  intros Hmissing. rewrite main_status, main_trace.
  pose proof (mainExitCode_cases env) as Hrun.
  unfold stateRead in Hrun. rewrite Hmissing in Hrun. simpl in Hrun.
  unfold configureCall, configureAnswer, upToLaunch.
  destruct (installed env) as [metaPlugin|]; [|by rewrite Hrun].
  simpl in Hrun.
  destruct (launched env) as [prov|]; [|by rewrite Hrun].
  destruct (tfdiags.HasErrors _); by rewrite Hrun.
Qed.

Lemma C8_missing_state_file_witness :
  files noStateFileEnv !! pathToState noStateFileEnv = None
  ∧ (main noStateFileEnv).1 = 1%Z
  ∧ (main noStateFileEnv).2
    = [Install "aws" "2.43.0";
       Launch (Path sampleMeta) hclog.Error;
       CallConfigure 4711 (configuration noStateFileEnv)
         {| conf_Diagnostics := [] |};
       ReadStateFile "terraform.tfstate";
       Log FailedToGetState].
Proof.
  split; [reflexivity|].
  destruct (C8_missing_state_file noStateFileEnv) as (Hstatus & Htrace & _).
  - reflexivity.
  - split; [exact Hstatus|]. rewrite Htrace. reflexivity.
Defined.

(** * Further properties *)

(** ** The force-destroy patch, beyond the flags *)

Lemma patched_twice k v :
  patched k v ≫= patched k = patched k v.
Proof.
  unfold patched. destruct (isForceDestroyName k); simpl; [|done].
  by destruct (cty.EqualsBool (cty.Type_ v)).
Qed.

(** Patching a payload twice gives what patching it once gives. *)
Theorem enableForceDestroyAttributes_idempotent (attrs : gmap string cty.Value) :
  enableForceDestroyAttributes (cty.ObjectVal attrs)
    ≫= enableForceDestroyAttributes
  = enableForceDestroyAttributes (cty.ObjectVal attrs).
Proof.
  rewrite enableForceDestroyAttributes_ObjectVal. simpl.
  rewrite enableForceDestroyAttributes_ObjectVal.
  apply (f_equal (λ m, Some (cty.ObjectVal m))).
  apply map_eq. intros k. rewrite !patch_lookup.
  destruct (attrs !! k) as [v|]; simpl; [|done].
  apply patched_twice.
Qed.

(** The patch never adds an attribute: the names of the result are names of
    the payload, and the only names that go missing are force-destroy names
    whose value is not of boolean type. *)
Theorem enableForceDestroyAttributes_names (attrs : gmap string cty.Value) :
  ∃ result,
    enableForceDestroyAttributes (cty.ObjectVal attrs)
    = Some (cty.ObjectVal result)
    ∧ dom result ⊆ dom attrs
    ∧ (size result ≤ size attrs)%nat
    ∧ ∀ k v, attrs !! k = Some v → result !! k = None →
             isForceDestroyName k = true ∧ cty.Type_ v ≠ cty.Bool.
Proof.
  exists (map_fold patchAttr ∅ attrs).
  split; [apply enableForceDestroyAttributes_ObjectVal|].
  assert (Hdom : dom (map_fold patchAttr ∅ attrs) ⊆ dom attrs).
  { intros k. rewrite !elem_of_dom, patch_lookup.
    destruct (attrs !! k); [eauto|]. by intros [? ?]. }
  split; [done|]. split.
  - rewrite <- !size_dom. by apply subseteq_size.
  - intros k v Hk. rewrite patch_lookup, Hk. simpl. unfold patched.
    destruct (isForceDestroyName k); [|done].
    destruct (cty.Type_ v); simpl; done.
Qed.

(** A known map is patched like an object, and what comes back is an
    object, not a map. *)
Theorem enableForceDestroyAttributes_MapVal elem (elems : gmap string cty.Value) :
  ∃ result,
    enableForceDestroyAttributes (cty.MapVal elem elems)
    = Some (cty.ObjectVal result)
    ∧ (∀ k, result !! k = elems !! k ≫= patched k)
    ∧ ∀ attrs, cty.Type_ (cty.ObjectVal result) ≠ cty.Map attrs.
Proof.
  exists (map_fold patchAttr ∅ elems). split; [|split].
  - unfold enableForceDestroyAttributes, cty.AsValueMap. simpl.
    destruct (size elems) eqn:Hsize; [|done].
    apply map_size_empty_iff in Hsize. by subst.
  - intros k. apply patch_lookup.
  - done.
Qed.

(** ** [destroy] at the edges of the patch *)

(** A state that cannot iterate elements is destroyed with the empty object
    as prior state: one request is sent, and it carries nothing of the
    state. *)
Theorem destroy_not_iterable p resType currentState tr :
  cty.CanIterateElements currentState = false →
  ∃ response,
    destroy p resType currentState tr
    = (inl response,
       tr ++ [CallApplyResourceChange (pid (provider p))
                {| apply_TypeName := resType;
                   PriorState := cty.ObjectVal ∅;
                   PlannedState := cty.NullVal cty.DynamicPseudoType;
                   Config := cty.NullVal cty.DynamicPseudoType;
                   PlannedPrivate := None |}
                response]).
Proof.
  intros Hno. unfold destroy, enableForceDestroyAttributes. rewrite Hno.
  run_step. eauto.
Qed.

Lemma destroy_not_iterable_witness :
  cty.CanIterateElements (cty.StringVal "my-bucket") = false
  ∧ ∃ response,
      destroy {| provider := sampleProvider |} "aws_s3_bucket"
        (cty.StringVal "my-bucket") []
      = (inl response,
         [] ++ [CallApplyResourceChange 4711
                  {| apply_TypeName := "aws_s3_bucket";
                     PriorState := cty.ObjectVal ∅;
                     PlannedState := cty.NullVal cty.DynamicPseudoType;
                     Config := cty.NullVal cty.DynamicPseudoType;
                     PlannedPrivate := None |}
                  response]).
Proof.
  split; [reflexivity|].
  apply (destroy_not_iterable {| provider := sampleProvider |} "aws_s3_bucket"
           (cty.StringVal "my-bucket") []).
  reflexivity.
Defined.

(** A null or unknown state of an object type with attributes makes the
    patch panic: [destroy] ends the process with status 2 and no request
    has been sent. *)
Theorem destroy_null_object p resType (tys : gmap string cty.Ty) tr :
  tys ≠ ∅ →
  destroy p resType (cty.NullVal (cty.Object tys)) tr = (inr 2%Z, tr)
  ∧ destroy p resType (cty.UnknownVal (cty.Object tys)) tr = (inr 2%Z, tr).
Proof.
  intros Hne.
  assert (Hsize : ∃ n, size tys = S n).
  { destruct (size tys) eqn:Hsize; [|eauto].
    by apply map_size_empty_iff in Hsize. }
  destruct Hsize as [n Hsize].
  unfold destroy, enableForceDestroyAttributes, cty.AsValueMap. simpl.
  by rewrite Hsize.
Qed.

Lemma destroy_null_object_witness :
  ({["id" := cty.String]} : gmap string cty.Ty) ≠ ∅
  ∧ destroy {| provider := sampleProvider |} "aws_s3_bucket" goneBucket []
    = (inr 2%Z, [])
  ∧ destroy {| provider := sampleProvider |} "aws_s3_bucket"
      (cty.UnknownVal (cty.Object {["id" := cty.String]})) []
    = (inr 2%Z, []).
Proof.
  assert (Hne : ({["id" := cty.String]} : gmap string cty.Ty) ≠ ∅)
    by apply insert_non_empty.
  split; [exact Hne|].
  apply (destroy_null_object {| provider := sampleProvider |} "aws_s3_bucket"
           {["id" := cty.String]} [] Hne).
Defined.

(** ** The resource ID among the other attributes *)

Lemma decode_members_app members1 members2 result saved :
  decode_members (members1 ++ members2) result saved
  = decode_members members2 (decode_members members1 result saved).1
      (decode_members members1 result saved).2.
Proof.
  revert result saved.
  induction members1 as [|[key v] rest IH]; intros result saved; simpl;
    [done|].
  destruct (selects_id key); [|apply IH].
  destruct (decode_ID v result saved) as [result' saved']. apply IH.
Qed.

(** An [id] member with a string value at the end of the object decides the
    ID, whatever the case of its key and whatever [id] members come before
    it, as long as none of those is refused. *)
Theorem getResourceID_last_id members key s private :
  selects_id key = true →
  Forall (λ member, selects_id member.1 = true → refused_ID member.2 = false)
    members →
  getResourceID
    {| states.AttrsJSON :=
         json.Valid (json.Object (members ++ [(key, json.String s)]));
       states.Private := private |}
  = (s, None).
Proof.
  intros Hkey Hgood. unfold getResourceID, Unmarshal. simpl.
  rewrite decode_members_app.
  pose proof (decode_members_error members {| ID := "" |} None) as Herr.
  destruct (decode_members members {| ID := "" |} None) as [result saved].
  simpl in *. rewrite Hkey. simpl.
  destruct saved as [e|]; [|done].
  exfalso. destruct Herr as [Herr _].
  destruct Herr as [?|Hbad]; [done..|].
  apply Exists_exists in Hbad as (member & Hin & Hsel & Hrefused).
  rewrite Forall_forall in Hgood.
  specialize (Hgood member Hin Hsel). congruence.
Qed.

Lemma getResourceID_last_id_witness :
  selects_id "ID" = true
  ∧ Forall (λ member : string * json.Document,
              selects_id member.1 = true → refused_ID member.2 = false)
      [("arn", json.Number "1"); ("id", json.String "old"); ("Id", json.Null)]
  ∧ getResourceID
      {| states.AttrsJSON :=
           json.Valid
             (json.Object
                ([("arn", json.Number "1"); ("id", json.String "old");
                  ("Id", json.Null)]
                 ++ [("ID", json.String "i-123")]));
         states.Private := "" |}
    = ("i-123", None).
Proof.
  assert (Hgood :
    Forall (λ member : string * json.Document,
              selects_id member.1 = true → refused_ID member.2 = false)
      [("arn", json.Number "1"); ("id", json.String "old"); ("Id", json.Null)]).
  { repeat constructor; simpl; intros; try reflexivity; discriminate. }
  split; [reflexivity|]. split; [exact Hgood|].
  apply (getResourceID_last_id
           [("arn", json.Number "1"); ("id", json.String "old");
            ("Id", json.Null)] "ID" "i-123" "");
    [reflexivity|exact Hgood].
Defined.

Lemma decode_members_filter members result saved :
  decode_members (filter (λ member, selects_id member.1 = true) members)
    result saved
  = decode_members members result saved.
Proof.
  revert result saved.
  induction members as [|[key v] rest IH]; intros result saved; [done|].
  rewrite filter_cons. simpl. destruct (selects_id key) eqn:Hkey.
  - rewrite decide_True by done. simpl. rewrite Hkey.
    destruct (decode_ID v result saved). apply IH.
  - rewrite decide_False by (by intros ?). apply IH.
Qed.

(** Members that are not [id] members do not count: whatever they hold, and
    however many they are, the ID and the error are those of the object
    without them. *)
Theorem getResourceID_ignores_other_members members private :
  getResourceID
    {| states.AttrsJSON := json.Valid (json.Object members);
       states.Private := private |}
  = getResourceID
      {| states.AttrsJSON :=
           json.Valid
             (json.Object
                (filter (λ member, selects_id member.1 = true) members));
         states.Private := private |}.
Proof.
  unfold getResourceID, Unmarshal. simpl. by rewrite decode_members_filter.
Qed.

(** ** The shape of the trace *)

Lemma forImportedResource_shape env p resType resID resImp count tr :
  ∃ count' block,
    forImportedResource env p resType resID resImp count tr
    = (inl count', tr ++ block)
    ∧ importedEvents (dryRun env) (pid (provider p)) resType resID resImp block.
Proof.
  unfold forImportedResource, ReadResource. run_step.
  fold (readRequestFor resImp).
  set (readResp := ReadResource_ _ _ _).
  destruct (tfdiags.HasErrors (read_Diagnostics readResp)) eqn:Hread.
  { eexists _, [_; _]. rewrite <- app_assoc. split; [done|].
    by apply imported_read_failed. }
  destruct (cty.IsNull (read_NewState readResp)) eqn:Hnull.
  { eexists _, [_; _]. rewrite <- app_assoc. split; [done|].
    by apply imported_gone. }
  unfold DeleteResource, applyResourceChange.
  destruct (dryRun env) eqn:Hdry; run_step.
  { eexists _, [_; _]. rewrite <- app_assoc. split; [done|].
    by apply imported_would_delete. }
  fold (applyRequestFor resType readResp).
  set (applyResp := ApplyResourceChange_ _ _ _).
  destruct (tfdiags.HasErrors (apply_Diagnostics applyResp)) eqn:Happly;
    run_step; eexists _, [_; _; _]; rewrite <- !app_assoc;
    (split; [done|]).
  - by apply imported_delete_failed.
  - by apply imported_deleted.
Qed.

Lemma rangeImportedResources_shape env p resType resID imported count tr :
  ∃ count' blocks,
    rangeImportedResources env p resType resID imported count tr
    = (inl count', tr ++ concat blocks)
    ∧ Forall2 (importedEvents (dryRun env) (pid (provider p)) resType resID)
        imported blocks.
Proof.
  revert count tr. induction imported as [|resImp rest IH]; intros count tr.
  - exists count, []. simpl. unfold ret. rewrite app_nil_r.
    split; [done|constructor].
  - simpl. unfold bind.
    destruct (forImportedResource_shape env p resType resID resImp count tr)
      as (count1 & block & -> & Hblock).
    destruct (IH count1 (tr ++ block)) as (count2 & blocks & -> & Hblocks).
    exists count2, (block :: blocks). simpl. rewrite app_assoc.
    split; [done|by constructor].
Qed.

Lemma forResourceInstance_shape env p state resAddr count tr :
  ∃ block,
    (forResourceInstance env p state resAddr count tr).2 = tr ++ block
    ∧ instanceEvents (dryRun env) (pid (provider p)) state resAddr block.
Proof.
  unfold forResourceInstance.
  destruct (states.current _) as [current|] eqn:Hcurrent.
  2:{ exists []. unfold ret. simpl. rewrite app_nil_r.
      split; [done|]. by apply instance_no_current. }
  destruct (getResourceID current) as [resID [err|]] eqn:HID.
  { run_step. eexists [_]. split; [done|].
    apply (instance_id_not_decoded _ _ _ _ current); [done|].
    by rewrite HID. }
  destruct (decide (addrs.Mode (addrs.inst_Resource (addrs.abs_Resource resAddr))
                    = addrs.ManagedResourceMode)) as [Hmode|Hmode].
  2:{ rewrite (bool_decide_eq_true_2 _ Hmode). run_step.
      eexists [_]. split; [done|].
      pose proof (instance_not_managed (dryRun env) (pid (provider p)) state
                    resAddr current Hcurrent) as Hshape.
      rewrite HID in Hshape. by apply Hshape. }
  rewrite bool_decide_eq_false_2 by (intros Hne; by apply Hne).
  unfold ImportResource. run_step.
  set (importResp := ImportResourceState_ _ _ _).
  destruct (tfdiags.HasErrors (import_Diagnostics importResp)) eqn:Himport.
  { eexists [_; _]. rewrite <- app_assoc. split; [done|].
    pose proof (instance_import_failed (dryRun env) (pid (provider p)) state
                  resAddr current importResp Hcurrent) as Hshape.
    unfold importRequestFor, typeOf in Hshape. rewrite HID in Hshape.
    by apply Hshape. }
  destruct (rangeImportedResources_shape env p
              (addrs.Type_ (addrs.inst_Resource (addrs.abs_Resource resAddr)))
              resID (ImportedResources importResp) count
              (tr ++ [CallImportResourceState (pid (provider p))
                        {| import_TypeName :=
                             addrs.Type_
                               (addrs.inst_Resource (addrs.abs_Resource resAddr));
                           import_ID := resID |} importResp]))
    as (count' & blocks & -> & Hblocks).
  eexists (_ :: concat blocks). simpl. rewrite <- app_assoc.
  split; [done|].
  pose proof (instance_imported (dryRun env) (pid (provider p)) state
                resAddr current importResp blocks Hcurrent) as Hshape.
  unfold importRequestFor, typeOf in Hshape. rewrite HID in Hshape.
  by apply Hshape.
Qed.

(** The trace of the loop over the resource instances is made of one block
    per instance it went through, each block one of the five ways through
    the loop body; it went through all instances unless it left the run at
    the last of them. *)
Theorem rangeResourceInstances_shape env p state resInstances count tr :
  ∃ visited blocks,
    (rangeResourceInstances env p state resInstances count tr).2
    = tr ++ concat blocks
    ∧ Forall2 (instanceEvents (dryRun env) (pid (provider p)) state)
        visited blocks
    ∧ visited `prefix_of` resInstances
    ∧ ((∃ count',
          (rangeResourceInstances env p state resInstances count tr).1
          = inl count')
       → visited = resInstances).
Proof.
  revert count tr.
  induction resInstances as [|resAddr rest IH]; intros count tr.
  - exists [], []. simpl. unfold ret. simpl. rewrite app_nil_r.
    split; [done|]. split; [constructor|]. split; [done|done].
  - simpl. unfold bind.
    destruct (forResourceInstance_shape env p state resAddr count tr)
      as (block & Htrace & Hblock).
    destruct (forResourceInstance env p state resAddr count tr)
      as [[count1|code] tr1]; simpl in Htrace; subst tr1.
    + destruct (IH count1 (tr ++ block))
        as (visited & blocks & Htrace & Hblocks & Hprefix & Hall).
      exists (resAddr :: visited), (block :: blocks). simpl.
      rewrite app_assoc. split; [done|]. split; [by constructor|].
      split; [by apply prefix_cons|].
      intros Hdone. f_equal. by apply Hall.
    + exists [resAddr], [block]. simpl. rewrite app_nil_r.
      split; [done|]. split; [by repeat constructor|].
      split; [apply prefix_cons, prefix_nil|].
      by intros [? ?].
Qed.

(** The whole trace of a run: events of the start, then one block per
    resource instance the loop went through, then at most the line with the
    total. *)
Lemma main_trace_blocks env :
  ∃ start q state visited blocks tail,
    (main env).2 = start ++ concat blocks ++ tail
    ∧ Forall startEvent start
    ∧ Forall2 (instanceEvents (dryRun env) q state) visited blocks
    ∧ (tail = [] ∨ ∃ n, tail = [Log (TotalDeleted n)]).
Proof.
  rewrite main_trace.
  pose proof (mainExitCode_cases env) as Hrun.
  assert (Hstart : ∀ result start,
            Forall startEvent start →
            mainExitCode env [] = (result, start) →
            ∃ start q state visited blocks tail,
              (mainExitCode env []).2 = start ++ concat blocks ++ tail
              ∧ Forall startEvent start
              ∧ Forall2 (instanceEvents (dryRun env) q state) visited blocks
              ∧ (tail = [] ∨ ∃ n, tail = [Log (TotalDeleted n)])).
  { intros result start Hevents ->. exists start, 0, noState, [], [], [].
    simpl. rewrite app_nil_r. split; [done|]. split; [done|].
    split; [constructor|by left]. }
  destruct (installed env) as [metaPlugin|];
    [|eapply Hstart; [|exact Hrun]; by repeat constructor].
  simpl in Hrun.
  destruct (launched env) as [prov|];
    [|eapply Hstart; [|exact Hrun]; by repeat constructor].
  destruct (tfdiags.HasErrors _);
    [eapply Hstart; [|exact Hrun]; by repeat constructor|].
  destruct (stateRead env) as [state|];
    [|eapply Hstart; [|exact Hrun]; by repeat constructor].
  destruct (tfdiags.HasErrors _);
    [eapply Hstart; [|exact Hrun]; by repeat constructor|].
  rewrite Hrun. clear Hrun Hstart. unfold bind.
  destruct (rangeResourceInstances_shape env {| provider := prov |} state
              (lookupAllResourceInstanceAddrs env state).1 0
              (startTrace env metaPlugin prov))
    as (visited & blocks & Htrace & Hblocks & _).
  destruct (rangeResourceInstances _ _ _ _ _ _) as [result tr].
  cbv beta iota delta [snd] in Htrace. subst tr.
  exists (startTrace env metaPlugin prov), (pid prov), state, visited, blocks.
  destruct result as [n|code]; cbv beta iota delta [emit ret snd].
  - exists [Log (TotalDeleted n)]. rewrite <- app_assoc.
    split; [done|]. split; [by repeat constructor|]. split; [done|].
    right. by exists n.
  - exists []. rewrite app_nil_r.
    split; [done|]. split; [by repeat constructor|]. split; [done|].
    by left.
Qed.

(** *** What follows from the shape *)

Lemma startEvents_quiet tr :
  Forall startEvent tr →
  applyRequests tr = []
  ∧ readRequests tr = []
  ∧ flat_map importedBy tr = []
  ∧ succeededDestroys tr = []
  ∧ List.filter readFound tr = []
  ∧ List.filter applied tr = []
  ∧ ∀ previous, appliesFollowReads previous tr.
Proof.
  induction 1 as [|e tr He _ (IHa & IHr & IHi & IHs & IHf & IHp & IHo)]; [done|].
  unfold applyRequests, readRequests, succeededDestroys in *.
  destruct e; simpl in *; try done; rewrite ?IHa, ?IHr, ?IHi, ?IHs, ?IHf, ?IHp;
    repeat split; try done; intros previous; split; done.
Qed.

Lemma total_quiet tail :
  tail = [] ∨ (∃ n, tail = [Log (TotalDeleted n)]) → Forall startEvent tail.
Proof. intros [->|[n ->]]; by repeat constructor. Qed.

(** In a dry run no apply request is sent. *)
Lemma importedEvents_dry q resType resID resImp block :
  importedEvents true q resType resID resImp block → applyRequests block = [].
Proof. by inversion 1. Qed.

Lemma applyRequests_app tr1 tr2 :
  applyRequests (tr1 ++ tr2) = applyRequests tr1 ++ applyRequests tr2.
Proof. apply omap_app. Qed.

Lemma importedBlocks_dry q resType resID imported blocks :
  Forall2 (importedEvents true q resType resID) imported blocks →
  applyRequests (concat blocks) = [].
Proof.
  induction 1 as [|resImp b imported bs Hb _ IH]; [done|].
  simpl. rewrite applyRequests_app, IH.
  by rewrite (importedEvents_dry _ _ _ _ _ Hb).
Qed.

Lemma instanceEvents_dry q state resAddr block :
  instanceEvents true q state resAddr block → applyRequests block = [].
Proof.
  inversion 1 as [| | | |current importResp blocks _ _ _ _ Hblocks]; try done.
  exact (importedBlocks_dry _ _ _ _ _ Hblocks).
Qed.

Theorem dry_run_sends_no_apply_request env :
  dryRun env = true → applyRequests (main env).2 = [].
Proof.
  intros Hdry.
  destruct (main_trace_blocks env)
    as (start & q & state & visited & blocks & tail & -> & Hstart & Hblocks
        & Htail).
  rewrite Hdry in Hblocks. apply total_quiet in Htail.
  rewrite !applyRequests_app.
  destruct (startEvents_quiet _ Hstart) as (-> & _).
  destruct (startEvents_quiet _ Htail) as (-> & _).
  rewrite app_nil_r. simpl.
  induction Hblocks as [|resAddr b rest bs Hb _ IH]; [done|].
  simpl. rewrite applyRequests_app, IH.
  by rewrite (instanceEvents_dry _ _ _ _ Hb).
Qed.

Lemma dry_run_sends_no_apply_request_witness :
  dryRun (sampleEnv true oneStateFile threeResources) = true
  ∧ applyRequests (main (sampleEnv true oneStateFile threeResources)).2 = [].
Proof.
  split; [reflexivity|].
  apply (dry_run_sends_no_apply_request
           (sampleEnv true oneStateFile threeResources)).
  reflexivity.
Defined.

(** Destroy comes only after a read that found the resource. *)
Lemma appliesFollowReads_app previous tr1 tr2 :
  appliesFollowReads previous tr1 →
  (∀ previous', appliesFollowReads previous' tr2) →
  appliesFollowReads previous (tr1 ++ tr2).
Proof.
  intros H1 H2. revert previous H1.
  induction tr1 as [|e tr1 IH]; intros previous H1; simpl; [apply H2|].
  destruct H1 as [He H1]. split; [done|by apply IH].
Qed.

Lemma appliesFollowReads_concat (blocks : list (list Event)) :
  Forall (λ block, ∀ previous, appliesFollowReads previous block) blocks →
  ∀ previous, appliesFollowReads previous (concat blocks).
Proof.
  induction 1 as [|block blocks Hblock _ IH]; intros previous; [done|].
  simpl. by apply appliesFollowReads_app.
Qed.

Lemma importedEvents_follow dry q resType resID resImp block :
  importedEvents dry q resType resID resImp block →
  ∀ previous, appliesFollowReads previous block.
Proof. inversion 1; intros previous; simpl; by repeat split. Qed.

Lemma instanceEvents_follow dry q state resAddr block :
  instanceEvents dry q state resAddr block →
  ∀ previous, appliesFollowReads previous block.
Proof.
  inversion 1 as [| | | |current importResp blocks _ _ _ _ Hblocks];
    intros previous; simpl; try by repeat split.
  split; [done|]. apply appliesFollowReads_concat.
  clear -Hblocks. induction Hblocks as [|resImp b imported bs Hb _ IH];
    constructor; [|done].
  by eapply importedEvents_follow.
Qed.

(** In every run, every apply request comes right after a read call to the
    same plugin process which answered without error and with a state that
    is not null, and its prior state is the new state of that read. *)
Theorem apply_only_after_read_found env :
  appliesFollowReads None (main env).2.
Proof.
  destruct (main_trace_blocks env)
    as (start & q & state & visited & blocks & tail & -> & Hstart & Hblocks
        & Htail).
  apply total_quiet in Htail.
  apply appliesFollowReads_app; [by apply startEvents_quiet|].
  intros previous. apply appliesFollowReads_app; [|by apply startEvents_quiet].
  apply appliesFollowReads_concat.
  clear -Hblocks. induction Hblocks as [|resAddr b rest bs Hb _ IH];
    constructor; [|done].
  by eapply instanceEvents_follow.
Qed.

(** What is imported is read. *)
Lemma readRequests_app tr1 tr2 :
  readRequests (tr1 ++ tr2) = readRequests tr1 ++ readRequests tr2.
Proof. apply omap_app. Qed.

Lemma importedEvents_reads dry q resType resID resImp block :
  importedEvents dry q resType resID resImp block →
  readRequests block = [readRequestFor resImp]
  ∧ flat_map importedBy block = [].
Proof. by inversion 1. Qed.

Lemma importedBlocks_reads dry q resType resID imported blocks :
  Forall2 (importedEvents dry q resType resID) imported blocks →
  readRequests (concat blocks) = readRequestFor <$> imported
  ∧ flat_map importedBy (concat blocks) = [].
Proof.
  induction 1 as [|resImp b imported bs Hb _ [IHr IHi]]; [done|].
  destruct (importedEvents_reads _ _ _ _ _ _ Hb) as [Hr Hi].
  simpl. rewrite readRequests_app, flat_map_app, Hr, Hi, IHr, IHi. done.
Qed.

Lemma instanceEvents_reads dry q state resAddr block :
  instanceEvents dry q state resAddr block →
  readRequests block = flat_map importedBy block.
Proof.
  inversion 1 as [| | |current importResp _ _ _ Himport
                  |current importResp blocks _ _ _ Himport Hblocks];
    try done.
  - simpl. by rewrite Himport.
  - destruct (importedBlocks_reads _ _ _ _ _ _ Hblocks) as [Hr Hi].
    simpl. rewrite Himport, Hi, app_nil_r. exact Hr.
Qed.

(** In every run, the read requests are, in order, those for the resources
    of the import responses without error: every such resource is read
    once, and nothing else is. *)
Theorem reads_are_the_imported env :
  readRequests (main env).2 = flat_map importedBy (main env).2.
Proof.
  destruct (main_trace_blocks env)
    as (start & q & state & visited & blocks & tail & -> & Hstart & Hblocks
        & Htail).
  apply total_quiet in Htail.
  rewrite !readRequests_app, !flat_map_app.
  destruct (startEvents_quiet _ Hstart) as (_ & -> & -> & _).
  destruct (startEvents_quiet _ Htail) as (_ & -> & -> & _).
  rewrite !app_nil_r. simpl.
  induction Hblocks as [|resAddr b rest bs Hb _ IH]; [done|].
  simpl. rewrite readRequests_app, flat_map_app, IH.
  by rewrite (instanceEvents_reads _ _ _ _ _ Hb).
Qed.

(** One line per destroy that succeeded. *)
Lemma importedEvents_lines dry q resType resID resImp block :
  importedEvents dry q resType resID resImp block →
  length (succeededDestroys block)
  = length (List.filter (if dry then readFound else applied) block).
Proof.
  inversion 1 as [readResp Hread|readResp Hread Hnull
                  |readResp Hdry Hread Hnull
                  |readResp applyResp Hdry Hread Hnull Happly
                  |readResp applyResp Hdry Hread Hnull Happly];
    subst; simpl; try rewrite Hread; try rewrite Hnull; try rewrite Happly;
    simpl; try done.
  all: by destruct dry; simpl; rewrite ?Hread, ?Hnull.
Qed.

Lemma importedBlocks_lines dry q resType resID imported blocks :
  Forall2 (importedEvents dry q resType resID) imported blocks →
  length (succeededDestroys (concat blocks))
  = length (List.filter (if dry then readFound else applied) (concat blocks)).
Proof.
  induction 1 as [|resImp b imported bs Hb _ IH]; [done|].
  simpl. rewrite succeededDestroys_app, List.filter_app, !length_app, IH.
  by rewrite (importedEvents_lines _ _ _ _ _ _ Hb).
Qed.

Lemma instanceEvents_lines dry q state resAddr block :
  instanceEvents dry q state resAddr block →
  length (succeededDestroys block)
  = length (List.filter (if dry then readFound else applied) block).
Proof.
  inversion 1 as [| | | |current importResp blocks _ _ _ _ Hblocks];
    try (by destruct dry).
  pose proof (importedBlocks_lines _ _ _ _ _ _ Hblocks) as Hlines.
  destruct dry; simpl; exact Hlines.
Qed.

(** In every run, the lines printed on standard output are as many as the
    apply calls the provider answered without error; in a dry run, as many
    as the read calls that found their resource. *)
Theorem one_line_per_destroy env :
  length (succeededDestroys (main env).2)
  = length (List.filter (if dryRun env then readFound else applied)
              (main env).2).
Proof.
  destruct (main_trace_blocks env)
    as (start & q & state & visited & blocks & tail & -> & Hstart & Hblocks
        & Htail).
  apply total_quiet in Htail.
  rewrite !succeededDestroys_app, !List.filter_app, !length_app.
  destruct (startEvents_quiet _ Hstart) as (_ & _ & _ & -> & Hf1 & Ha1 & _).
  destruct (startEvents_quiet _ Htail) as (_ & _ & _ & -> & Hf2 & Ha2 & _).
  assert (Hquiet : ∀ tr, List.filter readFound tr = [] →
                         List.filter applied tr = [] →
            List.filter (if dryRun env then readFound else applied) tr = []).
  { intros tr ? ?. by destruct (dryRun env). }
  rewrite (Hquiet _ Hf1 Ha1), (Hquiet _ Hf2 Ha2). simpl.
  rewrite !Nat.add_0_r. clear -Hblocks.
  induction Hblocks as [|resAddr b rest bs Hb _ IH]; [done|].
  simpl. rewrite succeededDestroys_app, List.filter_app, !length_app, IH.
  by rewrite (instanceEvents_lines _ _ _ _ _ Hb).
Qed.

(** ** Leaving the run *)

Lemma forResourceInstance_bad_id env p state resAddr count tr :
  ¬ decodes state resAddr →
  forResourceInstance env p state resAddr count tr
  = (inr 1%Z, tr ++ [Log (FailedToGetID resAddr)]).
Proof.
  intros Hbad. unfold forResourceInstance.
  unfold decodes, currentAt in Hbad.
  destruct (states.current _) as [current|];
    [|exfalso; apply Hbad; intros ? [=]].
  destruct (getResourceID current) as [resID [err|]] eqn:HID; [done|].
  exfalso. apply Hbad. intros ? [= <-]. by rewrite HID.
Qed.

Lemma rangeResourceInstances_app env p state resInstances1 resInstances2
    count tr :
  rangeResourceInstances env p state (resInstances1 ++ resInstances2) count tr
  = match rangeResourceInstances env p state resInstances1 count tr with
    | (inl count', tr') =>
        rangeResourceInstances env p state resInstances2 count' tr'
    | (inr code, tr') => (inr code, tr')
    end.
Proof.
  revert count tr.
  induction resInstances1 as [|resAddr rest IH]; intros count tr; [done|].
  simpl. unfold bind.
  destruct (forResourceInstance env p state resAddr count tr)
    as [[count1|code] tr1]; [apply IH|done].
Qed.

(** The loop leaves the run only with status 1 and only right after the
    line about an ID that did not decode. *)
Lemma rangeResourceInstances_leaves env p state resInstances count tr code :
  (rangeResourceInstances env p state resInstances count tr).1 = inr code →
  code = 1%Z
  ∧ ∃ bad, last (rangeResourceInstances env p state resInstances count tr).2
           = Some (Log (FailedToGetID bad)).
Proof.
  revert count tr.
  induction resInstances as [|resAddr rest IH]; intros count tr; [done|].
  simpl. unfold bind.
  destruct (decodes_dec state resAddr) as [Hdec|Hbad].
  - destruct (forResourceInstance_spec env p state resAddr count tr)
      as (added & _ & _ & Hok & _).
    destruct (Hok Hdec) as [Hresult _].
    destruct (forResourceInstance env p state resAddr count tr)
      as [result tr1].
    simpl in Hresult. subst result. apply IH.
  - rewrite (forResourceInstance_bad_id _ _ _ _ _ _ Hbad). simpl.
    intros [= <-]. split; [done|]. exists resAddr. by rewrite last_snoc.
Qed.

(** Once [flag.Parse] has accepted the command line, the rest of
    [mainExitCode] ends the run with status 0 or 1, and with 0 exactly when
    its last action is to report the total. *)
Theorem exit_status env :
  ((main env).1 = 0%Z ∧ ∃ n, last (main env).2 = Some (Log (TotalDeleted n)))
  ∨ ((main env).1 = 1%Z ∧ reportedTotal (main env).2 = None).
Proof.
  rewrite main_status, main_trace.
  pose proof (mainExitCode_cases env) as Hrun.
  destruct (installed env) as [metaPlugin|]; [|right; by rewrite Hrun].
  simpl in Hrun.
  destruct (launched env) as [prov|]; [|right; by rewrite Hrun].
  destruct (tfdiags.HasErrors _); [right; by rewrite Hrun|].
  destruct (stateRead env) as [state|]; [|right; by rewrite Hrun].
  destruct (tfdiags.HasErrors _); [right; by rewrite Hrun|].
  rewrite Hrun. clear Hrun. unfold bind.
  pose proof (rangeResourceInstances_leaves env {| provider := prov |} state
                (lookupAllResourceInstanceAddrs env state).1 0
                (startTrace env metaPlugin prov)) as Hleaves.
  destruct (rangeResourceInstances _ _ _ _ _ _) as [[n|code] tr];
    cbv beta iota delta [emit ret fst snd].
  - left. split; [done|]. exists n. by rewrite last_snoc.
  - right. destruct (Hleaves code eq_refl) as [-> [bad Hlast]].
    split; [done|]. unfold reportedTotal. simpl in Hlast. by rewrite Hlast.
Qed.

(** When the ID of an instance does not decode, the run ends there with
    status 1: the instances before it have been attempted, no instance
    after it is, and no total is reported. *)
Theorem run_ends_at_first_bad_id
    env metaPlugin prov state before bad after :
  reachesLoop env metaPlugin prov state (before ++ bad :: after) →
  Forall (decodes state) before →
  ¬ decodes state bad →
  ∃ tr,
    main env = (1%Z, tr)
    ∧ importRequests tr = flat_map (attempt state) before
    ∧ last tr = Some (Log (FailedToGetID bad))
    ∧ reportedTotal tr = None.
Proof.
  intros Hstart Hdec Hbad. unfold main.
  rewrite (mainExitCode_reachesLoop _ _ _ _ _ Hstart). unfold bind at 1.
  rewrite rangeResourceInstances_app.
  destruct (startTrace_quiet env metaPlugin prov) as [Hi _].
  destruct (rangeResourceInstances_spec env {| provider := prov |} state
              before 0 (startTrace env metaPlugin prov))
    as (added & Htrace & _ & Hok & _).
  destruct (Hok Hdec) as [Hcount Himports]. clear Hok.
  revert Hi Htrace Hcount.
  generalize (startTrace env metaPlugin prov). intros start Hi.
  destruct (rangeResourceInstances _ _ _ before _ _) as [result tr1].
  simpl. intros -> ->. unfold bind.
  rewrite (forResourceInstance_bad_id _ _ _ _ _ _ Hbad).
  eexists. split; [done|]. split; [|split].
  - by rewrite !importRequests_app, Hi, Himports, app_nil_r.
  - by rewrite last_snoc.
  - unfold reportedTotal. by rewrite last_snoc.
Qed.

Lemma run_ends_at_first_bad_id_witness :
  ∃ tr,
    main (sampleEnv false oneStateFile brokenInTheMiddle) = (1%Z, tr)
    ∧ importRequests tr
      = flat_map (attempt brokenInTheMiddle) [managed "aws_s3_bucket" "logs"]
    ∧ last tr = Some (Log (FailedToGetID (managed "aws_iam_role" "ci")))
    ∧ reportedTotal tr = None.
Proof.
  apply (run_ends_at_first_bad_id
           (sampleEnv false oneStateFile brokenInTheMiddle) sampleMeta
           sampleProvider brokenInTheMiddle
           [managed "aws_s3_bucket" "logs"] (managed "aws_iam_role" "ci")
           [managed "aws_s3_bucket" "assets"]).
  - split; [reflexivity|]. split; [reflexivity|]. split; [reflexivity|].
    split; [by exists "{ }"|]. by exists [].
  - repeat constructor. current_instance.
  - intros Hdec. specialize (Hdec numericIDObject eq_refl). discriminate.
Defined.

(** ** Installing a provider *)

(** A constraint text that does not parse is an error before the installer
    is asked for anything. *)
Theorem installProvider_bad_constraint
    w providerName constraint useCache cause tr :
  constraint ≠ "" →
  NewConstraint_ w constraint = inr cause →
  installProvider w providerName constraint useCache tr
  = (inl (noPluginMeta, Some (FailedToParseConstraint cause)), tr).
Proof.
  intros Hne Hparse. unfold installProvider.
  rewrite bool_decide_eq_true_2 by done. by rewrite Hparse.
Qed.

Lemma installProvider_bad_constraint_witness :
  "latest" ≠ ""
  ∧ installProvider sampleInstallers "aws" "latest" true []
    = (inl (noPluginMeta, Some (FailedToParseConstraint "Malformed constraint")),
       []).
Proof.
  split; [discriminate|].
  apply (installProvider_bad_constraint sampleInstallers "aws" "latest" true
           "Malformed constraint" []); [discriminate|reflexivity].
Defined.

Lemma installProvider_asks_once w providerName constraint useCache versions tr :
  versionsFor w constraint = Some versions →
  installProvider w providerName constraint useCache tr
  = (inl (let '(meta, tfDiagnostics, err) :=
            Get_ w (installerWith useCache) providerName versions in
          match err with
          | Some err =>
              (noPluginMeta, Some (DiagnosticsErr (Append tfDiagnostics err)))
          | None => (meta, None)
          end),
     tr ++ [Install providerName constraint]).
Proof.
  unfold versionsFor, installProvider. intros Hversions.
  change (".terradozer" +:+ "/cache") with ".terradozer/cache".
  fold (installerWith useCache).
  destruct (bool_decide (constraint ≠ ""));
    [destruct (NewConstraint_ w constraint) as [constraints|cause]; [|done]|];
    injection Hversions as <-; run_step;
    by destruct (Get_ w _ providerName _) as [[meta diags] [e|]].
Qed.

(** With a constraint text that is empty or parses, the installer is asked
    once, with the cache directory if the cache is to be used, and only its
    error decides: without one the plugin is returned whatever the
    diagnostics say, and with one the error returned carries diagnostics
    that have errors, together with the zero plugin. *)
Theorem installProvider_error_decides
    w providerName constraint useCache versions tr :
  versionsFor w constraint = Some versions →
  ∃ meta err,
    installProvider w providerName constraint useCache tr
    = (inl (meta, err), tr ++ [Install providerName constraint])
    ∧ match (Get_ w (installerWith useCache) providerName versions).2 with
      | None =>
          meta = (Get_ w (installerWith useCache) providerName versions).1.1
          ∧ err = None
      | Some _ =>
          meta = noPluginMeta
          ∧ ∃ diagnostics,
              err = Some (DiagnosticsErr diagnostics)
              ∧ tfdiags.HasErrors diagnostics = true
      end.
Proof.
  intros Hversions.
  rewrite (installProvider_asks_once _ _ _ _ _ _ Hversions).
  destruct (Get_ w _ providerName versions) as [[meta diags] [e|]]; simpl.
  - eexists _, _. split; [done|]. split; [done|].
    eexists. split; [done|].
    unfold Append, tfdiags.HasErrors. rewrite existsb_app. simpl.
    by rewrite orb_true_r.
  - eexists _, _. by split.
Qed.

Lemma installProvider_error_decides_witness :
  versionsFor sampleInstallers "2.43.0"
  = Some (discovery.NewConstraints "2.43.0")
  ∧ ∃ meta err,
      installProvider sampleInstallers "aws" "2.43.0" true []
      = (inl (meta, err), [] ++ [Install "aws" "2.43.0"])
      ∧ match (Get_ sampleInstallers (installerWith true) "aws"
                 (discovery.NewConstraints "2.43.0")).2 with
        | None =>
            meta = (Get_ sampleInstallers (installerWith true) "aws"
                      (discovery.NewConstraints "2.43.0")).1.1
            ∧ err = None
        | Some _ =>
            meta = noPluginMeta
            ∧ ∃ diagnostics,
                err = Some (DiagnosticsErr diagnostics)
                ∧ tfdiags.HasErrors diagnostics = true
        end.
Proof.
  split; [reflexivity|].
  apply (installProvider_error_decides sampleInstallers "aws" "2.43.0" true
           (discovery.NewConstraints "2.43.0") []).
  reflexivity.
Defined.

(** ** Initializing the providers *)

Lemma installations_app tr1 tr2 :
  installations (tr1 ++ tr2) = installations tr1 ++ installations tr2.
Proof. apply omap_app. Qed.

Lemma launches_app tr1 tr2 :
  launches (tr1 ++ tr2) = launches tr1 ++ launches tr2.
Proof. apply omap_app. Qed.

(** One provider name: nothing at all for a name [ProviderConfig] does not
    know; for a known name either the three steps install, launch and
    configure and one more entry in the map, or an error after at most the
    installation and the launch. *)
Lemma forProviderName_spec env w pName providers tr :
  ∃ result added,
    forProviderName env w pName providers tr = (inl result, tr ++ added)
    ∧ match ProviderConfig_ w pName with
      | None => result = inl providers ∧ added = []
      | Some (pConfig, pVersion) =>
          match result with
          | inl providers' =>
              ∃ metaPlugin prov resp,
                added = [Install pName pVersion;
                         Launch (Path metaPlugin) (launchLevel env);
                         CallConfigure (pid prov) {| conf_Config := pConfig |}
                           resp]
                ∧ tfdiags.HasErrors (conf_Diagnostics resp) = false
                ∧ providers' = <[pName := {| provider := prov |}]> providers
          | inr _ => installations added `prefix_of` [(pName, pVersion)]
          end
      end.
Proof.
  unfold forProviderName.
  destruct (ProviderConfig_ w pName) as [[pConfig pVersion]|].
  2:{ exists (inl providers), []. unfold ret. by rewrite app_nil_r. }
  unfold bind at 1.
  destruct (versionsFor w pVersion) as [versions|] eqn:Hversions.
  2:{ unfold versionsFor in Hversions. unfold installProvider.
      destruct (bool_decide (pVersion ≠ "")); [|done].
      destruct (NewConstraint_ w pVersion) as [?|cause]; [done|].
      run_step. eexists _, []. rewrite app_nil_r. split; [done|].
      apply prefix_nil. }
  rewrite (installProvider_asks_once _ _ _ _ _ _ Hversions).
  destruct (Get_ w _ pName versions) as [[metaPlugin diags] [e|]].
  { run_step. eexists _, [_]. split; [done|]. by exists []. }
  unfold newTerraformProvider, configure. run_step.
  fold (launchLevel env).
  destruct (providerFactory_ env _ _) as [prov|]; simpl.
  2:{ eexists _, [_; _]. rewrite <- app_assoc. split; [done|]. by exists []. }
  rewrite <- !app_assoc.
  destruct (tfdiags.HasErrors _) eqn:Hconf; simpl.
  - eexists _, [_; _; _]. split; [done|]. by exists [].
  - eexists _, [_; _; _]. split; [done|].
    eexists _, _, _. split; [done|]. split; [exact Hconf|done].
Qed.

Lemma requestOf_supported w pName :
  match ProviderConfig_ w pName with
  | Some (pConfig, pVersion) =>
      requestOf w pName = Some (pName, pVersion) ∧ supported w pName
  | None => requestOf w pName = None ∧ ¬ supported w pName
  end.
Proof.
  unfold requestOf, supported.
  destruct (ProviderConfig_ w pName) as [[pConfig pVersion]|].
  - split; [done|eauto].
  - split; [done|]. by intros [? ?].
Qed.

Lemma rangeProviderNames_spec env w providerNames providers tr :
  ∃ result added,
    rangeProviderNames env w providerNames providers tr
    = (inl result, tr ++ added)
    ∧ installations added `prefix_of` omap (requestOf w) providerNames
    ∧ ∀ providers',
        result = inl providers' →
        installations added = omap (requestOf w) providerNames
        ∧ dom providers'
          = dom providers ∪ list_to_set (filter (supported w) providerNames)
        ∧ length (launches added)
          = length (filter (supported w) providerNames)
        ∧ ∀ pName p,
            providers' !! pName = Some p →
            providers !! pName = Some p
            ∨ ∃ pConfig pVersion,
                ProviderConfig_ w pName = Some (pConfig, pVersion)
                ∧ configuredWith added (pid (provider p)) pConfig.
Proof.
  revert providers tr.
  induction providerNames as [|pName rest IH]; intros providers tr.
  - exists (inl providers), []. simpl. unfold ret. rewrite app_nil_r.
    split; [done|]. split; [done|]. intros ? [= <-].
    split; [done|]. split; [by rewrite (right_id_L ∅ (∪))|].
    split; [done|]. by left.
  - simpl. unfold bind.
    destruct (forProviderName_spec env w pName providers tr)
      as (result1 & added1 & -> & Hstep).
    pose proof (requestOf_supported w pName) as Hname.
    rewrite filter_cons.
    destruct (ProviderConfig_ w pName) as [[pConfig pVersion]|] eqn:Hconfig.
    + destruct Hname as [Hrequest Hsupported].
      rewrite Hrequest, (decide_True _ _ Hsupported).
      destruct result1 as [providers1|err].
      * destruct Hstep as (metaPlugin & prov & resp & -> & Hok & ->).
        destruct (IH (<[pName := {| provider := prov |}]> providers)
                    (tr ++ [Install pName pVersion;
                            Launch (Path metaPlugin) (launchLevel env);
                            CallConfigure (pid prov)
                              {| conf_Config := pConfig |} resp]))
          as (result & added & -> & Hprefix & Hdone).
        eexists result, (_ ++ added). rewrite app_assoc. split; [done|].
        rewrite installations_app. simpl. split; [by apply prefix_cons|].
        intros providers' ->.
        destruct (Hdone providers' eq_refl) as (Hi & Hdom & Hl & Hconf).
        rewrite Hi. split; [done|]. split.
        { rewrite Hdom, dom_insert_L. simpl.
          by rewrite (comm_L (∪) {[pName]} (dom providers)), <- (assoc_L (∪)). }
        split; [simpl; by rewrite Hl|].
        intros name p Hp. destruct (Hconf name p Hp) as [Hacc|Hnew].
        -- destruct (decide (pName = name)) as [->|Hne].
           ++ rewrite lookup_insert_eq in Hacc. injection Hacc as <-.
              right. exists pConfig, pVersion. split; [done|].
              exists resp. split; [|done]. simpl.
              do 2 apply list_elem_of_further. apply list_elem_of_here.
           ++ rewrite lookup_insert_ne in Hacc by done. by left.
        -- right. destruct Hnew as (c & v & ? & resp' & Hin & Hok').
           exists c, v. split; [done|]. exists resp'. split; [|done].
           simpl. by do 3 apply list_elem_of_further.
      * run_step. exists (inr err), added1. split; [done|].
        split; [|done].
        etrans; [exact Hstep|]. by apply prefix_cons, prefix_nil.
    + destruct Hname as [Hrequest Hsupported]. destruct Hstep as [-> ->].
      rewrite Hrequest, (decide_False _ _ Hsupported), app_nil_r.
      apply IH.
Qed.

Lemma rangeProviderNames_filter env w providerNames providers tr :
  rangeProviderNames env w (filter (supported w) providerNames) providers tr
  = rangeProviderNames env w providerNames providers tr.
Proof.
  revert providers tr.
  induction providerNames as [|pName rest IH]; intros providers tr; [done|].
  rewrite filter_cons. pose proof (requestOf_supported w pName) as Hname.
  destruct (ProviderConfig_ w pName) as [[pConfig pVersion]|] eqn:Hconfig.
  - destruct Hname as [_ Hsupported]. rewrite (decide_True _ _ Hsupported).
    simpl. unfold bind.
    destruct (forProviderName env w pName providers tr) as [[[?|?]|?] ?];
      [apply IH|done..].
  - destruct Hname as [_ Hsupported]. rewrite (decide_False _ _ Hsupported).
    rewrite IH. simpl. unfold bind, forProviderName. by rewrite Hconfig.
Qed.

(** Names [ProviderConfig] does not know are passed over: what
    [InitProviders] returns, and what it asks of the installer and of the
    plugins, is what it returns and asks for the list without them. *)
Theorem InitProviders_ignores_unsupported env w providerNames tr :
  (InitProviders env w providerNames tr).1
  = (InitProviders env w (filter (supported w) providerNames) tr).1
  ∧ installations (InitProviders env w providerNames tr).2
    = installations
        (InitProviders env w (filter (supported w) providerNames) tr).2
  ∧ launches (InitProviders env w providerNames tr).2
    = launches (InitProviders env w (filter (supported w) providerNames) tr).2
  ∧ configureRequests (InitProviders env w providerNames tr).2
    = configureRequests
        (InitProviders env w (filter (supported w) providerNames) tr).2
  ∧ calledProcesses (InitProviders env w providerNames tr).2
    = calledProcesses
        (InitProviders env w (filter (supported w) providerNames) tr).2.
Proof.
  unfold InitProviders, bind. by rewrite rangeProviderNames_filter.
Qed.

Lemma forProviderName_failure env w pName providers tr err added :
  forProviderName env w pName providers tr = (inl (inr err), tr ++ added) →
  failedAt env w pName err added.
Proof.
  unfold forProviderName.
  destruct (ProviderConfig_ w pName) as [[pConfig pVersion]|] eqn:Hconfig;
    [|by intros [= ?]].
  unfold bind at 1.
  destruct (versionsFor w pVersion) as [versions|] eqn:Hversions.
  2:{ unfold versionsFor in Hversions. unfold installProvider.
      destruct (bool_decide (pVersion ≠ "")) eqn:Hne; [|done].
      apply bool_decide_eq_true_1 in Hne.
      destruct (NewConstraint_ w pVersion) as [?|cause] eqn:Hparse; [done|].
      run_step. intros [= <- Htrace].
      assert (added = []) as ->.
      { apply (app_inv_head tr). by rewrite app_nil_r. }
      by eapply failed_constraint. }
  rewrite (installProvider_asks_once _ _ _ _ _ _ Hversions).
  destruct (Get_ w _ pName versions) as [[metaPlugin diags] [e|]].
  { run_step. intros [= <- Htrace]. apply app_inv_head in Htrace as <-.
    eapply failed_install; [done|].
    unfold Append, tfdiags.HasErrors. rewrite existsb_app. simpl.
    by rewrite orb_true_r. }
  unfold newTerraformProvider, configure. run_step.
  fold (launchLevel env).
  destruct (providerFactory_ env _ _) as [prov|]; simpl.
  2:{ rewrite <- app_assoc. intros [= <- Htrace].
      apply app_inv_head in Htrace as <-. by eapply failed_launch. }
  rewrite <- !app_assoc.
  destruct (tfdiags.HasErrors _) eqn:Hconf; simpl; [|by intros [= ?]].
  intros [= <- Htrace]. apply app_inv_head in Htrace as <-.
  by eapply failed_configure.
Qed.

Lemma rangeProviderNames_outcome env w providerNames providers tr :
  ∃ result added,
    rangeProviderNames env w providerNames providers tr
    = (inl result, tr ++ added)
    ∧ match result with
      | inl _ => installations added = omap (requestOf w) providerNames
      | inr err =>
          ∃ before pName after completed failing,
            providerNames = before ++ pName :: after
            ∧ added = completed ++ failing
            ∧ installations completed = omap (requestOf w) before
            ∧ length (launches completed)
              = length (filter (supported w) before)
            ∧ failedAt env w pName err failing
      end.
Proof.
  revert providers tr.
  induction providerNames as [|pName rest IH]; intros providers tr.
  - exists (inl providers), []. simpl. unfold ret. by rewrite app_nil_r.
  - simpl. unfold bind.
    destruct (forProviderName_spec env w pName providers tr)
      as (result1 & added1 & Hrun & Hstep).
    pose proof (forProviderName_failure env w pName providers tr) as Hfail.
    rewrite Hrun in Hfail |- *.
    pose proof (requestOf_supported w pName) as Hname.
    destruct result1 as [providers1|err].
    + destruct (IH providers1 (tr ++ added1))
        as (result & added & -> & Hrest).
      exists result, (added1 ++ added). rewrite app_assoc. split; [done|].
      assert (Hfirst :
        installations added1 = from_option (λ r, [r]) [] (requestOf w pName)
        ∧ length (launches added1)
          = length (filter (supported w) [pName])).
      { rewrite filter_cons, filter_nil.
        destruct (ProviderConfig_ w pName) as [[pConfig pVersion]|].
        - destruct Hname as [-> Hsupported].
          rewrite (decide_True _ _ Hsupported).
          by destruct Hstep as (metaPlugin & prov & resp & -> & _).
        - destruct Hname as [-> Hsupported].
          rewrite (decide_False _ _ Hsupported).
          by destruct Hstep as [_ ->]. }
      destruct Hfirst as [Hi1 Hl1].
      destruct result as [providers'|err].
      * rewrite installations_app, Hi1, Hrest.
        by destruct (requestOf w pName).
      * destruct Hrest as (before & bad & after & completed & failing
                           & -> & -> & Hi & Hl & Hbad).
        exists (pName :: before), bad, after, (added1 ++ completed), failing.
        split; [done|]. split; [by rewrite app_assoc|].
        split; [rewrite installations_app, Hi1, Hi; simpl;
                by destruct (requestOf w pName)|].
        split; [|done].
        rewrite launches_app, length_app, Hl1, Hl.
        rewrite (filter_cons _ pName before), filter_cons, filter_nil.
        by destruct (decide (supported w pName)).
    + run_step. exists (inr err), added1. split; [done|].
      exists [], pName, rest, [], added1.
      split; [done|]. split; [done|]. split; [done|]. split; [done|].
      by apply Hfail.
Qed.

(** [InitProviders] returns the map or an error, never both and never by
    leaving the process. With the map, the installer has been asked for
    every known name of the list, in order. With an error, the list splits
    at the name that failed: for the names before it everything has been
    done (their installations in order, one launch per known name), for the
    failing name the steps up to the one that failed, which is the one the
    error names, and for the names after it nothing. *)
Theorem InitProviders_installs_in_order env w providerNames tr :
  ∃ result added,
    InitProviders env w providerNames tr = (inl result, tr ++ added)
    ∧ ((∃ providers,
          result = (Some providers, None)
          ∧ installations added = omap (requestOf w) providerNames)
       ∨ (∃ err before pName after completed failing,
            result = (None, Some err)
            ∧ providerNames = before ++ pName :: after
            ∧ added = completed ++ failing
            ∧ installations completed = omap (requestOf w) before
            ∧ length (launches completed)
              = length (filter (supported w) before)
            ∧ failedAt env w pName err failing)).
Proof.
  unfold InitProviders, bind.
  destruct (rangeProviderNames_outcome env w providerNames ∅ tr)
    as (result & added & -> & Houtcome).
  destruct result as [providers|err]; run_step.
  - eexists _, added. split; [done|]. left. eauto.
  - eexists _, added. split; [done|]. right.
    destruct Houtcome as (before & pName & after & completed & failing & ?).
    exists err, before, pName, after, completed, failing. by split.
Qed.

(** When [InitProviders] succeeds, the map has exactly the known names of
    the list, the installer has been asked for each of them in order, a
    plugin has been launched for every occurrence of a known name, and
    every provider of the map has been configured, without error, with the
    configuration of its name. *)
Theorem InitProviders_success env w providerNames tr providers tr' :
  InitProviders env w providerNames tr = (inl (Some providers, None), tr') →
  ∃ added,
    tr' = tr ++ added
    ∧ installations added = omap (requestOf w) providerNames
    ∧ dom providers = list_to_set (filter (supported w) providerNames)
    ∧ length (launches added) = length (filter (supported w) providerNames)
    ∧ ∀ pName p,
        providers !! pName = Some p →
        ∃ pConfig pVersion,
          ProviderConfig_ w pName = Some (pConfig, pVersion)
          ∧ configuredWith added (pid (provider p)) pConfig.
Proof.
  unfold InitProviders, bind.
  destruct (rangeProviderNames_spec env w providerNames ∅ tr)
    as (result & added & -> & _ & Hdone).
  destruct result as [providers0|err]; run_step; [|done].
  intros [= <- <-].
  destruct (Hdone providers0 eq_refl) as (Hi & Hdom & Hl & Hconf).
  exists added. split; [done|]. split; [done|].
  split; [by rewrite Hdom, dom_empty_L, (left_id_L ∅ (∪))|].
  split; [done|].
  intros pName p Hp. destruct (Hconf pName p Hp) as [Hempty|Hnew]; [|done].
  by rewrite lookup_empty in Hempty.
Qed.

Lemma InitProviders_success_witness :
  InitProviders (sampleEnv false oneStateFile threeResources) sampleInstallers
    awsTwice []
  = (inl (Some awsOnly, None), awsTwiceTrace)
  ∧ ∃ added,
      awsTwiceTrace = [] ++ added
      ∧ installations added = omap (requestOf sampleInstallers) awsTwice
      ∧ dom awsOnly = list_to_set (filter (supported sampleInstallers) awsTwice)
      ∧ length (launches added)
        = length (filter (supported sampleInstallers) awsTwice)
      ∧ ∀ pName p,
          awsOnly !! pName = Some p →
          ∃ pConfig pVersion,
            ProviderConfig_ sampleInstallers pName = Some (pConfig, pVersion)
            ∧ configuredWith added (pid (provider p)) pConfig.
Proof.
  assert (Hrun :
    InitProviders (sampleEnv false oneStateFile threeResources)
      sampleInstallers awsTwice []
    = (inl (Some awsOnly, None), awsTwiceTrace)) by (vm_compute; reflexivity).
  split; [exact Hrun|].
  exact (InitProviders_success (sampleEnv false oneStateFile threeResources)
           sampleInstallers awsTwice [] awsOnly awsTwiceTrace Hrun).
Defined.

(** ** A run that reaches the loop, event by event *)

(** The trace of a run that reaches the loop is the trace of the start, then
    one block for each resource instance the loop went through, in order,
    each block one of the five ways through the loop body, and then either
    the line with the total, with status 0 and every instance gone through,
    or nothing more, with status 1. *)
Theorem run_trace_shape env metaPlugin prov state resInstances :
  reachesLoop env metaPlugin prov state resInstances →
  ∃ visited blocks tail,
    (main env).2 = startTrace env metaPlugin prov ++ concat blocks ++ tail
    ∧ Forall2 (instanceEvents (dryRun env) (pid prov) state) visited blocks
    ∧ visited `prefix_of` resInstances
    ∧ (((main env).1 = 0%Z ∧ visited = resInstances
        ∧ ∃ n, tail = [Log (TotalDeleted n)])
       ∨ ((main env).1 = 1%Z ∧ tail = [])).
Proof.
  intros Hstart. rewrite main_status, main_trace.
  rewrite (mainExitCode_reachesLoop _ _ _ _ _ Hstart). unfold bind.
  destruct (rangeResourceInstances_shape env {| provider := prov |} state
              resInstances 0 (startTrace env metaPlugin prov))
    as (visited & blocks & Htrace & Hblocks & Hprefix & Hall).
  pose proof (rangeResourceInstances_leaves env {| provider := prov |} state
                resInstances 0 (startTrace env metaPlugin prov)) as Hleaves.
  destruct (rangeResourceInstances _ _ _ _ _ _) as [result tr].
  cbv beta iota delta [fst snd] in Htrace, Hall, Hleaves. subst tr.
  exists visited, blocks.
  destruct result as [n|code]; cbv beta iota delta [emit ret fst snd].
  - exists [Log (TotalDeleted n)]. rewrite <- app_assoc.
    split; [done|]. split; [done|]. split; [done|]. left.
    split; [done|]. split; [apply Hall; eauto|eauto].
  - exists []. rewrite app_nil_r.
    split; [done|]. split; [done|]. split; [done|]. right.
    destruct (Hleaves code eq_refl) as [-> _]. done.
Qed.

Lemma run_trace_shape_witness :
  reachesLoop (sampleEnv false oneStateFile brokenInTheMiddle) sampleMeta
    sampleProvider brokenInTheMiddle
    (fst <$> states.instances brokenInTheMiddle)
  ∧ ∃ visited blocks tail,
      (main (sampleEnv false oneStateFile brokenInTheMiddle)).2
      = startTrace (sampleEnv false oneStateFile brokenInTheMiddle) sampleMeta
          sampleProvider
        ++ concat blocks ++ tail
      ∧ Forall2 (instanceEvents false 4711 brokenInTheMiddle) visited blocks
      ∧ visited `prefix_of` (fst <$> states.instances brokenInTheMiddle)
      ∧ (((main (sampleEnv false oneStateFile brokenInTheMiddle)).1 = 0%Z
          ∧ visited = fst <$> states.instances brokenInTheMiddle
          ∧ ∃ n, tail = [Log (TotalDeleted n)])
         ∨ ((main (sampleEnv false oneStateFile brokenInTheMiddle)).1 = 1%Z
            ∧ tail = [])).
Proof.
  assert (Hstart :
    reachesLoop (sampleEnv false oneStateFile brokenInTheMiddle) sampleMeta
      sampleProvider brokenInTheMiddle
      (fst <$> states.instances brokenInTheMiddle)).
  { split; [reflexivity|]. split; [reflexivity|]. split; [reflexivity|].
    split; [by exists "{ }"|]. by exists []. }
  split; [exact Hstart|].
  exact (run_trace_shape (sampleEnv false oneStateFile brokenInTheMiddle)
           sampleMeta sampleProvider brokenInTheMiddle
           (fst <$> states.instances brokenInTheMiddle) Hstart).
Defined.

(** * The run over all resource instances *)

(** ** What the blocks of the instances add up to *)

Lemma calledProcesses_app tr1 tr2 :
  calledProcesses (tr1 ++ tr2) = calledProcesses tr1 ++ calledProcesses tr2.
Proof. apply omap_app. Qed.




Lemma importedEvents_calls dry q resType resID resImp block :
  importedEvents dry q resType resID resImp block →
  Forall (λ q', q' = q) (calledProcesses block).
Proof. inversion 1; by repeat constructor. Qed.

Lemma importedBlocks_calls dry q resType resID imported blocks :
  Forall2 (importedEvents dry q resType resID) imported blocks →
  Forall (λ q', q' = q) (calledProcesses (concat blocks)).
Proof.
  induction 1 as [|resImp b imported bs Hb _ IH]; [constructor|].
  simpl. rewrite calledProcesses_app. apply Forall_app. split; [|done].
  by eapply importedEvents_calls.
Qed.

(** The block of an instance calls the plugin process of the run only, and
    calls it exactly when the instance is a managed resource with a current
    object whose ID decodes. *)
Lemma instanceEvents_drivenThrough dry q state resAddr block :
  instanceEvents dry q state resAddr block →
  drivenThrough q state resAddr block.
Proof.
  unfold drivenThrough, driven.
  inversion 1 as [Hnone|current Hcur Hbad|current Hcur Hid Hmode
                  |current importResp Hcur Hid Hmode Himport
                  |current importResp blocks Hcur Hid Hmode Himport Hblocks];
    subst.
  - split; [constructor|]. split; [|done].
    intros (current & Hcur & _). congruence.
  - split; [constructor|]. split; [|done].
    intros (current' & Hcur' & Hid & _). congruence.
  - split; [constructor|]. split; [|done].
    intros (current' & _ & _ & Hmanaged). congruence.
  - split; [by repeat constructor|]. split; [eauto|].
    intros Hno. exfalso. apply Hno. eauto.
  - split.
    + constructor; [done|]. by eapply importedBlocks_calls.
    + split; [eauto|]. intros Hno. exfalso. apply Hno. eauto.
Qed.






Lemma instanceBlocks_drivenThrough dry q state visited blocks :
  Forall2 (instanceEvents dry q state) visited blocks →
  Forall2 (drivenThrough q state) visited blocks.
Proof.
  induction 1 as [|resAddr b rest bs Hb _ IH]; constructor; [|done].
  by eapply instanceEvents_drivenThrough.
Qed.


(** ** Failures of single resources *)



(** ** The one provider of the run *)

(** Claim C10, refuted as stated: the state holds a resource instance with
    a current object, the run ends with status 0, and nothing was driven
    through the provider for that instance, which is a data source: the
    only call of the run is the one that configures the plugin. *)
Lemma C10_data_source_is_not_driven :
  currentAt onlyDataSource (dataSource "aws_ami" "ubuntu")
  = states.Current (withID "ami-1")
  ∧ main (sampleEnv false oneStateFile onlyDataSource)
    = (0%Z,
       startTrace (sampleEnv false oneStateFile onlyDataSource) sampleMeta
         sampleProvider
       ++ [Log (SkipNotManaged "aws_ami" "ami-1"); Log (TotalDeleted 0)])
  ∧ importRequests (main (sampleEnv false oneStateFile onlyDataSource)).2 = []
  ∧ readRequests (main (sampleEnv false oneStateFile onlyDataSource)).2 = []
  ∧ applyRequests (main (sampleEnv false oneStateFile onlyDataSource)).2 = [].
Proof. repeat split; vm_compute; reflexivity. Qed.

(** Claim C10, amended. Whatever the environment, and so whatever the state
    file holds: the run installs one provider, "aws" with the constraint
    "2.43.0"; it launches the installed plugin once, if the installation
    succeeded; it configures the launched plugin once, if the launch
    succeeded; and every call of the run goes to that one plugin process.
    When the run reaches the loop, its trace has one block for each
    resource instance the loop goes through, which are all instances if
    every ID decodes; the instances driven through the provider are the
    managed ones with a current object whose ID decodes: the block of such
    an instance starts with the import request for it, all calls of the
    block go to the one plugin process, and the block of any other instance
    has no call. *)
Theorem C10_one_hard_coded_provider env :
  installations (main env).2 = [("aws", "2.43.0")]
  ∧ launches (main env).2
    = match installed env with Some metaPlugin => [Path metaPlugin] | None => [] end
  ∧ configureRequests (main env).2
    = match launched env with Some _ => [configuration env] | None => [] end
  ∧ Forall (λ q, Some q = pid <$> launched env) (calledProcesses (main env).2)
  ∧ ∀ metaPlugin prov state resInstances,
      reachesLoop env metaPlugin prov state resInstances →
      launched env = Some prov
      ∧ ∃ visited blocks tail,
          (main env).2 = startTrace env metaPlugin prov ++ concat blocks ++ tail
          ∧ calledProcesses (startTrace env metaPlugin prov) = [pid prov]
          ∧ calledProcesses tail = []
          ∧ visited `prefix_of` resInstances
          ∧ (Forall (decodes state) resInstances → visited = resInstances)
          ∧ Forall2 (drivenThrough (pid prov) state) visited blocks.
Proof.
  split; [|split; [|split; [|split]]].
  5:{ intros metaPlugin prov state resInstances Hstart.
      split; [by destruct Hstart as (_ & ? & _)|].
      rewrite main_trace, (mainExitCode_reachesLoop _ _ _ _ _ Hstart).
      unfold bind.
      destruct (rangeResourceInstances_shape env {| provider := prov |} state
                  resInstances 0 (startTrace env metaPlugin prov))
        as (visited & blocks & Htrace & Hblocks & Hprefix & Hall).
      destruct (rangeResourceInstances_spec env {| provider := prov |} state
                  resInstances 0 (startTrace env metaPlugin prov))
        as (added & _ & _ & Hok & _).
      destruct (rangeResourceInstances _ _ _ _ _ _) as [result tr].
      cbv beta iota delta [fst snd] in Htrace, Hall, Hok. subst tr.
      exists visited, blocks.
      apply instanceBlocks_drivenThrough in Hblocks. simpl in Hblocks.
      assert (Hvisited : Forall (decodes state) resInstances →
                         visited = resInstances).
      { intros Hdec. apply Hall. destruct (Hok Hdec) as [-> _]. eauto. }
      destruct result as [n|code]; cbv beta iota delta [emit ret snd].
      - exists [Log (TotalDeleted n)]. by rewrite <- app_assoc.
      - exists []. by rewrite app_nil_r. }
  all: rewrite main_trace.
  all: pose proof (mainExitCode_cases env) as Hrun.
  all: unfold launched in *.
  all: destruct (installed env) as [metaPlugin|];
    [|by rewrite Hrun; try constructor].
  all: simpl in Hrun.
  all: destruct (providerFactory_ env _ _) as [prov|];
    [|by rewrite Hrun; try constructor].
  all: destruct (tfdiags.HasErrors _);
    [by rewrite Hrun; repeat constructor|].
  all: destruct (stateRead env) as [state|];
    [|by rewrite Hrun; repeat constructor].
  all: destruct (tfdiags.HasErrors _);
    [by rewrite Hrun; repeat constructor|].
  all: rewrite Hrun; clear Hrun; unfold bind.
  all: destruct (rangeResourceInstances_spec env {| provider := prov |} state
                   (lookupAllResourceInstanceAddrs env state).1 0
                   (startTrace env metaPlugin prov))
         as (added & Htrace & Hloop & _).
  all: destruct (rangeResourceInstances _ _ _ _ _ _) as [result tr].
  all: cbv beta iota delta [snd] in Htrace; subst tr.
  all: apply fromLoop_quiet in Hloop as (Hi & Hl & Hc & Hp); simpl in Hp.
  all: assert (Hstart :
         installations (startTrace env metaPlugin prov) = [("aws", "2.43.0")]
         ∧ launches (startTrace env metaPlugin prov) = [Path metaPlugin]
         ∧ configureRequests (startTrace env metaPlugin prov)
           = [configuration env]
         ∧ calledProcesses (startTrace env metaPlugin prov) = [pid prov])
         by done.
  all: destruct Hstart as (Si & Sl & Sc & Sp).
  all: revert Si Sl Sc Sp; generalize (startTrace env metaPlugin prov).
  all: intros start Si Sl Sc Sp.
  all: unfold installations, launches, configureRequests, calledProcesses in *.
  all: destruct result as [n|code]; cbv beta iota delta [emit ret snd];
    repeat rewrite omap_app; rewrite ?Hi, ?Hl, ?Hc, ?Si, ?Sl, ?Sc, ?Sp; simpl;
    rewrite ?app_nil_r; try done.
  all: constructor; [done|].
  all: eapply Forall_impl; [exact Hp|]; by intros q ->.
Qed.

Lemma C10_one_hard_coded_provider_witness :
  reachesLoop (sampleEnv false oneStateFile threeResources) sampleMeta
    sampleProvider threeResources (fst <$> states.instances threeResources)
  ∧ launched (sampleEnv false oneStateFile threeResources)
    = Some sampleProvider
  ∧ ∃ visited blocks tail,
      (main (sampleEnv false oneStateFile threeResources)).2
      = startTrace (sampleEnv false oneStateFile threeResources) sampleMeta
          sampleProvider
        ++ concat blocks ++ tail
      ∧ calledProcesses
          (startTrace (sampleEnv false oneStateFile threeResources) sampleMeta
             sampleProvider)
        = [4711]
      ∧ calledProcesses tail = []
      ∧ visited `prefix_of` (fst <$> states.instances threeResources)
      ∧ (Forall (decodes threeResources)
           (fst <$> states.instances threeResources) →
         visited = fst <$> states.instances threeResources)
      ∧ Forall2 (drivenThrough 4711 threeResources) visited blocks.
Proof.
  split; [apply threeResources_reachesLoop|].
  destruct (C10_one_hard_coded_provider
              (sampleEnv false oneStateFile threeResources))
    as (_ & _ & _ & _ & Hloop).
  exact (Hloop sampleMeta sampleProvider threeResources
           (fst <$> states.instances threeResources)
           (threeResources_reachesLoop false)).
Defined.
